(** * techhub.js: the attachee records and the roster's performance report

    A shallow embedding of the two classes of [techhub.js], [Attachee] and
    [TaskManager], and the properties of the score, the task identifiers, the
    lookups by email and the performance report.

    Representation.
    - JavaScript numbers that the program handles (scores, priorities, task
      identifiers, counters) are integers, modelled by [Z]; the two divisions,
      [total / this.feedback.length] and [totalScore / count], are taken
      exactly, in [Q], before [Math.round].  The numbers of the program are
      IEEE doubles: the sums and the quotients of the model are those of the
      program as long as the absolute values of the summed scores add up to
      less than [2^52] ([exact_range] below), and the decimal digits of
      [Number_toString] are what the program prints for an integer of
      magnitude below [10^21].  Every property about the value of a computed
      score, of an average, or about printed numbers carries that bound as a
      hypothesis.
    - A method is a function from the state of [this] to a completion (a
      value or a thrown error) and the new state of [this].
    - The roster array holds distinct [Attachee] objects: each one is created
      by [new] inside [addAttachee] and pushed once.  The array of objects is
      therefore the list of their current states, and mutating the object that
      [find] returned is a list update at the position where it was found.
    - The clock read by [new Date().toISOString()] is an argument [now]. *)

From Stdlib Require Import ZArith QArith Qround Lia Lqa.
From stdpp Require Import base option list strings pretty gmap.

Local Open Scope string_scope.
Local Open Scope Z_scope.
Local Open Scope list_scope.

(** ** Completions and methods *)

Inductive JsError : Type :=
| Error (message : string)
| TypeError (message : string).

Inductive Completion (A : Type) : Type :=
| Normal (value : A)
| Throw (error : JsError).
Arguments Normal {A} value.
Arguments Throw {A} error.

Definition Method (S A : Type) : Type := S -> Completion A * S.

(** [Math.round(x)] is the integer nearest to [x], a half going up:
    [floor(x + 1/2)]. *)
Definition Math_round (x : Q) : Z := Qfloor (x + (1 # 2))%Q.

(** [items.forEach(body)] where [body] may mutate the item it is given and
    updates the local variables [acc] of the enclosing function. *)
Fixpoint forEach {S L} (body : L -> Method S L) (acc : L) : Method (list S) L :=
  fun items =>
    match items with
    | [] => (Normal acc, [])
    | item :: rest =>
        match body acc item with
        | (Normal acc', item') =>
            let '(c, rest') := forEach body acc' rest in (c, item' :: rest')
        | (Throw e, item') => (Throw e, item' :: rest)
        end
    end.

(** [for (const key in object) body] over the keys of [object] in the order
    [keys]; a [continue] is a body that returns at once. *)
Fixpoint forIn {S} (keys : list string) (body : string -> Method S unit)
  : Method S unit :=
  fun state =>
    match keys with
    | [] => (Normal tt, state)
    | key :: rest =>
        match body key state with
        | (Normal _, state') => forIn rest body state'
        | (Throw e, state') => (Throw e, state')
        end
    end.

(** The line feed that the string literals of the program write [\n]. *)
Definition LF : string := String (Ascii.ascii_of_nat 10) "".

(** [s.toUpperCase()] for a string of ASCII characters: the letters [a] to
    [z] become [A] to [Z], every other character stays. *)
Definition toUpperCase_char (c : Ascii.ascii) : Ascii.ascii :=
  let n := Ascii.nat_of_ascii c in
  if ((97 <=? n)%nat && (n <=? 122)%nat)%bool then Ascii.ascii_of_nat (n - 32) else c.

Fixpoint toUpperCase (s : string) : string :=
  match s with
  | EmptyString => EmptyString
  | String c s' => String (toUpperCase_char c) (toUpperCase s')
  end.

(** An integer of magnitude below [10^21] inside a template literal: its
    decimal digits, after a minus sign when it is negative.  (From [10^21] on
    the program prints an exponent form, which is not modelled.) *)
Definition Number_toString (n : Z) : string := pretty n.

(** ** Tasks and feedback entries *)

Module Task.
Record t : Type := mk {
  id : Z;
  description : string;
  deadline : string;
  priority : Z;
  completed : bool;
  completionDate : option string
}.
End Task.

Module Feedback.
Record t : Type := mk {
  text : string;
  score : Z;
  reviewer : string;
  date : string
}.
End Feedback.

(** The object returned by [getPerformanceSummary]. *)
Module Summary.
Record t : Type := mk {
  name : string;
  division : string;
  performanceScore : Z;
  tasksAssigned : Z;
  tasksCompleted : Z;
  tasksPending : Z;
  feedbackCount : Z
}.
End Summary.

(** ** class Attachee *)

Module Attachee.

Record t : Type := mk {
  name : string;
  email : string;
  division : string;
  tasks : list Task.t;
  feedback : list Feedback.t;
  performanceScore : Z
}.

(** Assignments to the fields that the methods write. *)
Definition set_tasks (v : list Task.t) (this : t) : t :=
  {| name := name this; email := email this; division := division this;
     tasks := v; feedback := feedback this;
     performanceScore := performanceScore this |}.

Definition set_feedback (v : list Feedback.t) (this : t) : t :=
  {| name := name this; email := email this; division := division this;
     tasks := tasks this; feedback := v;
     performanceScore := performanceScore this |}.

Definition set_performanceScore (v : Z) (this : t) : t :=
  {| name := name this; email := email this; division := division this;
     tasks := tasks this; feedback := feedback this;
     performanceScore := v |}.

Definition validDivisions : list string :=
  ["Engineering"; "Tech Programs"; "Radio Support"; "Hub Support"].

(** [validDivisions.join(', ')] *)
Definition join (sep : string) (l : list string) : string := String.concat sep l.

Definition validateDivision (division : string) : Completion string :=
  if decide (division ∈ validDivisions)
  then Normal division
  else Throw (Error ("Invalid division. Must be one of: " +:+ join ", " validDivisions)).

(** [new Attachee(name, email, division)] *)
Definition new (name email division : string) : Completion t :=
  match validateDivision division with
  | Normal division' =>
      Normal {| name := name; email := email; division := division';
                tasks := []; feedback := []; performanceScore := 0 |}
  | Throw e => Throw e
  end.

Definition assignTask (taskDescription deadline : string) (priority : Z)
  : Method t unit :=
  fun this =>
    let newTask :=
      {| Task.id := Z.of_nat (length (tasks this)) + 1;
         Task.description := taskDescription;
         Task.deadline := deadline;
         Task.priority := priority;
         Task.completed := false;
         Task.completionDate := None |} in
    (Normal tt, set_tasks (tasks this ++ [newTask]) this).

(** [find] returns the first task with the identifier; the two assignments
    mutate that task object, which sits at position [i] of [this.tasks]. *)
Definition completeTask (taskId : Z) (completionDate : string) : Method t unit :=
  fun this =>
    match list_find (fun t => Task.id t = taskId) (tasks this) with
    | Some (i, task) =>
        let task' :=
          {| Task.id := Task.id task;
             Task.description := Task.description task;
             Task.deadline := Task.deadline task;
             Task.priority := Task.priority task;
             Task.completed := true;
             Task.completionDate := Some completionDate |} in
        (Normal tt, set_tasks (<[i := task']> (tasks this)) this)
    | None => (Normal tt, this)
    end.

(** The sum and the quotient are exact here; they are those of the program
    when the absolute values of the feedback scores add up to less than
    [2^52]. *)
Definition calculatePerformanceScore : Method t unit :=
  fun this =>
    if Z.of_nat (length (feedback this)) =? 0 then (Normal tt, this)
    else
      let total :=
        foldl (fun sum entry => sum + Feedback.score entry) 0 (feedback this) in
      (Normal tt,
       set_performanceScore
         (Math_round (inject_Z total / inject_Z (Z.of_nat (length (feedback this)))))
         this).

Definition addFeedback (feedbackText : string) (score : Z) (reviewer now : string)
  : Method t unit :=
  fun this =>
    let entry :=
      {| Feedback.text := feedbackText; Feedback.score := score;
         Feedback.reviewer := reviewer; Feedback.date := now |} in
    calculatePerformanceScore (set_feedback (feedback this ++ [entry]) this).

Definition getPerformanceSummary : Method t Summary.t :=
  fun this =>
    let completedTasks := Z.of_nat (length (filter (fun t => Task.completed t = true) (tasks this))) in
    let pendingTasks := Z.of_nat (length (tasks this)) - completedTasks in
    (Normal
       {| Summary.name := name this;
          Summary.division := division this;
          Summary.performanceScore := performanceScore this;
          Summary.tasksAssigned := Z.of_nat (length (tasks this));
          Summary.tasksCompleted := completedTasks;
          Summary.tasksPending := pendingTasks;
          Summary.feedbackCount := Z.of_nat (length (feedback this)) |},
     this).

(** The public methods, as calls with their arguments; [run] performs a
    sequence of calls on one record, in order. *)
Inductive Call : Type :=
| AssignTask (taskDescription deadline : string) (priority : Z)
| CompleteTask (taskId : Z) (completionDate : string)
| AddFeedback (feedbackText : string) (score : Z) (reviewer now : string)
| CalculatePerformanceScore
| GetPerformanceSummary.

Definition call (c : Call) (this : t) : t :=
  match c with
  | AssignTask taskDescription deadline priority =>
      snd (assignTask taskDescription deadline priority this)
  | CompleteTask taskId completionDate =>
      snd (completeTask taskId completionDate this)
  | AddFeedback feedbackText score reviewer now =>
      snd (addFeedback feedbackText score reviewer now this)
  | CalculatePerformanceScore => snd (calculatePerformanceScore this)
  | GetPerformanceSummary => snd (getPerformanceSummary this)
  end.

Definition run (calls : list Call) (this : t) : t :=
  foldl (fun this c => call c this) this calls.

Definition is_AssignTask (c : Call) : bool :=
  match c with AssignTask _ _ _ => true | _ => false end.

Definition is_AddFeedback (c : Call) : bool :=
  match c with AddFeedback _ _ _ _ => true | _ => false end.

End Attachee.


(** ** class TaskManager *)

(** [report.overallStats] *)
Module OverallStats.
Record t : Type := mk {
  totalAttachees : Z;
  averageScore : Z;
  highestScore : Z;
  lowestScore : Z
}.
End OverallStats.

(** The report object: the properties named after divisions, each holding an
    array of summaries, and the property [overallStats]. *)
Module Report.
Record t : Type := mk {
  divisions : gmap string (list Summary.t);
  overallStats : OverallStats.t
}.
End Report.

Module TaskManager.

Record t : Type := mk { attachees : list Attachee.t }.

(** [new TaskManager()] *)
Definition new : t := {| attachees := [] |}.

Definition addAttachee (name email division : string) : Method t Attachee.t :=
  fun this =>
    match Attachee.new name email division with
    | Normal newAttachee =>
        (Normal newAttachee, {| attachees := attachees this ++ [newAttachee] |})
    | Throw e => (Throw e, this)
    end.

Definition removeAttachee (email : string) : Method t unit :=
  fun this =>
    (Normal tt,
     {| attachees := filter (fun a => Attachee.email a ≠ email) (attachees this) |}).

Definition getAttacheesByDivision (division : string) : Method t (list Attachee.t) :=
  fun this =>
    (Normal (filter (fun a => Attachee.division a = division) (attachees this)), this).

(** The array that [getAttacheesByDivision] returns holds the roster's own
    objects, so the callback mutates the records of the roster whose division
    is [division], in roster order, and no other. *)
Definition assignTaskToDivision (division taskDescription deadline : string)
    (priority : Z) : Method t unit :=
  fun this =>
    let '(c, attachees') :=
      forEach
        (fun _ attachee =>
           if decide (Attachee.division attachee = division)
           then Attachee.assignTask taskDescription deadline priority attachee
           else (Normal tt, attachee))
        tt (attachees this) in
    (c, {| attachees := attachees' |}).

Definition assignTaskToAttachee (email taskDescription deadline : string)
    (priority : Z) : Method t unit :=
  fun this =>
    match list_find (fun a => Attachee.email a = email) (attachees this) with
    | Some (i, attachee) =>
        let '(c, attachee') :=
          Attachee.assignTask taskDescription deadline priority attachee in
        (c, {| attachees := <[i := attachee']> (attachees this) |})
    | None => (Normal tt, this)
    end.

Definition addFeedbackToAttachee (email feedbackText : string) (score : Z)
    (reviewer now : string) : Method t unit :=
  fun this =>
    match list_find (fun a => Attachee.email a = email) (attachees this) with
    | Some (i, attachee) =>
        let '(c, attachee') :=
          Attachee.addFeedback feedbackText score reviewer now attachee in
        (c, {| attachees := <[i := attachee']> (attachees this) |})
    | None => (Normal tt, this)
    end.

Definition set_averageScore (v : Z) (report : Report.t) : Report.t :=
  let s := Report.overallStats report in
  {| Report.divisions := Report.divisions report;
     Report.overallStats :=
       {| OverallStats.totalAttachees := OverallStats.totalAttachees s;
          OverallStats.averageScore := v;
          OverallStats.highestScore := OverallStats.highestScore s;
          OverallStats.lowestScore := OverallStats.lowestScore s |} |}.

Definition set_highestScore (v : Z) (report : Report.t) : Report.t :=
  let s := Report.overallStats report in
  {| Report.divisions := Report.divisions report;
     Report.overallStats :=
       {| OverallStats.totalAttachees := OverallStats.totalAttachees s;
          OverallStats.averageScore := OverallStats.averageScore s;
          OverallStats.highestScore := v;
          OverallStats.lowestScore := OverallStats.lowestScore s |} |}.

Definition set_lowestScore (v : Z) (report : Report.t) : Report.t :=
  let s := Report.overallStats report in
  {| Report.divisions := Report.divisions report;
     Report.overallStats :=
       {| OverallStats.totalAttachees := OverallStats.totalAttachees s;
          OverallStats.averageScore := OverallStats.averageScore s;
          OverallStats.highestScore := OverallStats.highestScore s;
          OverallStats.lowestScore := v |} |}.

(** The callback of the [forEach] in [generatePerformanceReport]; the local
    variables of the method that it updates are [report], [totalScore] and
    [count].  For a key other than the four division names, [report[key]] is
    [undefined], the [overallStats] object or an inherited property, none of
    which has a [push] method: the call throws a [TypeError]. *)
Definition report_callback (locals : Report.t * Z * Z)
  : Method Attachee.t (Report.t * Z * Z) :=
  fun attachee =>
    let '(report, totalScore, count) := locals in
    match Attachee.getPerformanceSummary attachee with
    | (Normal summary, attachee) =>
        match Report.divisions report !! Attachee.division attachee with
        | Some array =>
            let report :=
              {| Report.divisions :=
                   <[Attachee.division attachee := array ++ [summary]]>
                     (Report.divisions report);
                 Report.overallStats := Report.overallStats report |} in
            let totalScore := totalScore + Summary.performanceScore summary in
            let count := count + 1 in
            let report :=
              if Summary.performanceScore summary
                   >? OverallStats.highestScore (Report.overallStats report)
              then set_highestScore (Summary.performanceScore summary) report
              else report in
            let report :=
              if Summary.performanceScore summary
                   <? OverallStats.lowestScore (Report.overallStats report)
              then set_lowestScore (Summary.performanceScore summary) report
              else report in
            (Normal (report, totalScore, count), attachee)
        | None => (Throw (TypeError "report[attachee.division].push"), attachee)
        end
    | (Throw e, attachee) => (Throw e, attachee)
    end.

(** [totalScore] and the quotient are exact here; they are those of the
    program when the absolute values of the records' scores add up to less
    than [2^52]. *)
Definition generatePerformanceReport : Method t Report.t :=
  fun this =>
    let report :=
      {| Report.divisions :=
           {[ "Engineering" := []; "Tech Programs" := [];
              "Radio Support" := []; "Hub Support" := [] ]};
         Report.overallStats :=
           {| OverallStats.totalAttachees := Z.of_nat (length (attachees this));
              OverallStats.averageScore := 0;
              OverallStats.highestScore := 0;
              OverallStats.lowestScore := 100 |} |} in
    let totalScore := 0 in
    let count := 0 in
    match forEach report_callback (report, totalScore, count) (attachees this) with
    | (Normal (report, totalScore, count), attachees') =>
        let report :=
          if count >? 0
          then set_averageScore
                 (Math_round (inject_Z totalScore / inject_Z count)) report
          else set_lowestScore 0 (set_highestScore 0 (set_averageScore 0 report)) in
        (Normal report, {| attachees := attachees' |})
    | (Throw e, attachees') => (Throw e, {| attachees := attachees' |})
    end.

(** The keys of the report object in the order in which the object literal
    of [generatePerformanceReport] creates them, which is the order in which
    [for ... in] visits them; the method adds and removes no key. *)
Definition report_keys : list string :=
  ["Engineering"; "Tech Programs"; "Radio Support"; "Hub Support"; "overallStats"].

(** The callback of the inner [forEach]: four [console.log] calls for one
    summary.  The console is the list of the messages logged so far. *)
Definition display_summary (console : list string) : Method Summary.t (list string) :=
  fun attachee =>
    (Normal
       (console ++
          [LF +:+ "Name: " +:+ Summary.name attachee;
           "Performance Score: "
             +:+ Number_toString (Summary.performanceScore attachee) +:+ "/100";
           "Tasks: " +:+ Number_toString (Summary.tasksCompleted attachee) +:+ "/"
             +:+ Number_toString (Summary.tasksAssigned attachee) +:+ " completed";
           "Feedback Entries: " +:+ Number_toString (Summary.feedbackCount attachee)]),
     attachee).

(** The body of the [for ... in] loop of [displayPerformanceReport];
    [console.log] does not throw. *)
Definition display_division (report : Report.t) (division : string)
  : Method (list string) unit :=
  fun console =>
    if decide (division = "overallStats") then (Normal tt, console)
    else
      match Report.divisions report !! division with
      | Some attachees =>
          if Z.of_nat (length attachees) >? 0 then
            let console :=
              console ++
                [LF +:+ "--- " +:+ toUpperCase division +:+ " DIVISION ("
                   +:+ Number_toString (Z.of_nat (length attachees))
                   +:+ " attachees) ---"] in
            match forEach display_summary console attachees with
            | (Normal console, _) => (Normal tt, console)
            | (Throw e, _) => (Throw e, console)
            end
          else (Normal tt, console)
      | None => (Throw (TypeError "attachees.length"), console)
      end.

(** The state of [displayPerformanceReport] is the roster and the console. *)
Definition displayPerformanceReport : Method (t * list string) unit :=
  fun '(this, console) =>
    match generatePerformanceReport this with
    | (Normal report, this) =>
        let console :=
          console ++ [LF +:+ "=== TECH INNOVATION HUB PERFORMANCE REPORT ===" +:+ LF] in
        match forIn report_keys (display_division report) console with
        | (Normal _, console) =>
            let stats := Report.overallStats report in
            let console := console ++ [LF +:+ "=== OVERALL STATISTICS ==="] in
            let console :=
              console ++ ["Total Attachees: "
                            +:+ Number_toString (OverallStats.totalAttachees stats)] in
            let console :=
              console ++ ["Average Performance Score: "
                            +:+ Number_toString (OverallStats.averageScore stats)] in
            let console :=
              console ++ ["Highest Score: "
                            +:+ Number_toString (OverallStats.highestScore stats)] in
            let console :=
              console ++ ["Lowest Score: "
                            +:+ Number_toString (OverallStats.lowestScore stats)] in
            (Normal tt, (this, console))
        | (Throw e, console) => (Throw e, (this, console))
        end
    | (Throw e, this) => (Throw e, (this, console))
    end.

(** The public methods of the roster as calls.  A caller also holds the
    records themselves ([addAttachee] returns the new record, and the example
    at the end of [techhub.js] takes one out of [hubManager.attachees] and
    calls [completeTask] on it): [OnRecord i c] is the call [c] made directly
    on the record at position [i] of the roster. *)
Inductive Call : Type :=
| AddAttachee (name email division : string)
| RemoveAttachee (email : string)
| GetAttacheesByDivision (division : string)
| AssignTaskToDivision (division taskDescription deadline : string) (priority : Z)
| AssignTaskToAttachee (email taskDescription deadline : string) (priority : Z)
| AddFeedbackToAttachee (email feedbackText : string) (score : Z) (reviewer now : string)
| GeneratePerformanceReport
| OnRecord (i : nat) (c : Attachee.Call).

Definition call (c : Call) (this : t) : t :=
  match c with
  | AddAttachee name email division => snd (addAttachee name email division this)
  | RemoveAttachee email => snd (removeAttachee email this)
  | GetAttacheesByDivision division => snd (getAttacheesByDivision division this)
  | AssignTaskToDivision division taskDescription deadline priority =>
      snd (assignTaskToDivision division taskDescription deadline priority this)
  | AssignTaskToAttachee email taskDescription deadline priority =>
      snd (assignTaskToAttachee email taskDescription deadline priority this)
  | AddFeedbackToAttachee email feedbackText score reviewer now =>
      snd (addFeedbackToAttachee email feedbackText score reviewer now this)
  | GeneratePerformanceReport => snd (generatePerformanceReport this)
  | OnRecord i c =>
      match attachees this !! i with
      | Some attachee => {| attachees := <[i := Attachee.call c attachee]> (attachees this) |}
      | None => this
      end
  end.

Definition run (calls : list Call) (this : t) : t :=
  foldl (fun this c => call c this) this calls.

End TaskManager.

(** ** The notions the properties are stated with *)

Definition Zsum (l : list Z) : Z := foldr Z.add 0 l.

(** The arithmetic mean of a list of integers, as a rational. *)
Definition mean (l : list Z) : Q :=
  (inject_Z (Zsum l) / inject_Z (Z.of_nat (length l)))%Q.

(** [r] is [x] rounded to the nearest integer, a half going up:
    [r - 1/2 <= x < r + 1/2]. *)
Definition rounds_half_up (x : Q) (r : Z) : Prop :=
  (inject_Z r - (1 # 2) <= x)%Q ∧ (x < inject_Z r + (1 # 2))%Q.

(** The scores for which the doubles of the program compute as the model
    does.  When the absolute values add up to less than [2^52], every partial
    sum is an integer of magnitude below [2^53] and is a double, so the
    additions are exact.  The quotient [total / n] is then rounded to a
    double [q]: a half-integer of that magnitude is a double, so [q] is the
    quotient when the quotient is a half-integer; otherwise the quotient is
    at least [1 / (2 n)] away from every half-integer, which is more than the
    rounding error, at most [|total| / (n * 2^53)], so [q] lies on the same
    side of every half-integer as the quotient.  [Math.round q] is therefore
    the exact quotient rounded, a half going up. *)
Definition exact_range (l : list Z) : Prop := Zsum (Z.abs <$> l) < 2 ^ 52.

Definition is_max (m : Z) (l : list Z) : Prop := m ∈ l ∧ Forall (fun x => x <= m) l.

Definition is_min (m : Z) (l : list Z) : Prop := m ∈ l ∧ Forall (fun x => m <= x) l.

Definition feedbackScores (a : Attachee.t) : list Z :=
  Feedback.score <$> Attachee.feedback a.

Definition rosterScores (tm : TaskManager.t) : list Z :=
  Attachee.performanceScore <$> TaskManager.attachees tm.

(** The score a record must carry for the feedback it holds. *)
Definition score_matches_feedback (a : Attachee.t) : Prop :=
  match Attachee.feedback a with
  | [] => Attachee.performanceScore a = 0
  | _ :: _ => rounds_half_up (mean (feedbackScores a)) (Attachee.performanceScore a)
  end.

(** Task identifiers [1], [2], ..., [n], in the order of the task list. *)
Definition dense_ids (a : Attachee.t) : Prop :=
  Task.id <$> Attachee.tasks a
  = Z.of_nat <$> seq 1 (length (Attachee.tasks a)).

Fixpoint completed_count (ts : list Task.t) : Z :=
  match ts with
  | [] => 0
  | t :: ts' => (if Task.completed t then 1 else 0) + completed_count ts'
  end.

(** The summary of a record as the specification words it: the three fixed
    fields, the number of tasks, the number of completed tasks, their
    difference, and the number of feedback entries. *)
Definition summary_of (a : Attachee.t) : Summary.t :=
  {| Summary.name := Attachee.name a;
     Summary.division := Attachee.division a;
     Summary.performanceScore := Attachee.performanceScore a;
     Summary.tasksAssigned := Z.of_nat (length (Attachee.tasks a));
     Summary.tasksCompleted := completed_count (Attachee.tasks a);
     Summary.tasksPending :=
       Z.of_nat (length (Attachee.tasks a)) - completed_count (Attachee.tasks a);
     Summary.feedbackCount := Z.of_nat (length (Attachee.feedback a)) |}.

(** What holds of every record that the constructor built and that only
    method calls changed. *)
Definition record_ok (a : Attachee.t) : Prop :=
  Attachee.division a ∈ Attachee.validDivisions ∧
  score_matches_feedback a ∧ dense_ids a.

(** The error of [validateDivision]. *)
Definition InvalidDivisionError : JsError :=
  Error "Invalid division. Must be one of: Engineering, Tech Programs, Radio Support, Hub Support".

(** What the report's [overallStats] would be if it held the count, the
    rounded mean, the maximum and the minimum of the roster's scores. *)
Definition stats_describe_roster (tm : TaskManager.t) : Prop :=
  ∃ r, TaskManager.generatePerformanceReport tm = (Normal r, tm) ∧
    let s := Report.overallStats r in
    OverallStats.totalAttachees s = Z.of_nat (length (TaskManager.attachees tm)) ∧
    rounds_half_up (mean (rosterScores tm)) (OverallStats.averageScore s) ∧
    is_max (OverallStats.highestScore s) (rosterScores tm) ∧
    is_min (OverallStats.lowestScore s) (rosterScores tm).

(** The part of a task that is fixed when it is assigned. *)
Definition task_static (t : Task.t) : Z * string * string * Z :=
  (Task.id t, Task.description t, Task.deadline t, Task.priority t).

(** The part of a record that the constructor fixes. *)
Definition identity (a : Attachee.t) : string * string * string :=
  (Attachee.name a, Attachee.email a, Attachee.division a).

(** A task carries a completion date exactly when it is completed. *)
Definition dates_match (a : Attachee.t) : Prop :=
  Forall (fun t => Task.completed t = true ↔ is_Some (Task.completionDate t))
    (Attachee.tasks a).

(** The messages that the display shows for one summary, for the header of a
    division with [n] members, and for the overall statistics. *)
Definition summary_lines (s : Summary.t) : list string :=
  [LF +:+ "Name: " +:+ Summary.name s;
   "Performance Score: " +:+ Number_toString (Summary.performanceScore s) +:+ "/100";
   "Tasks: " +:+ Number_toString (Summary.tasksCompleted s) +:+ "/"
     +:+ Number_toString (Summary.tasksAssigned s) +:+ " completed";
   "Feedback Entries: " +:+ Number_toString (Summary.feedbackCount s)].

Definition division_header (d : string) (n : nat) : string :=
  LF +:+ "--- " +:+ toUpperCase d +:+ " DIVISION ("
    +:+ Number_toString (Z.of_nat n) +:+ " attachees) ---".

Definition division_lines (d : string) (members : list Attachee.t) : list string :=
  match members with
  | [] => []
  | _ :: _ =>
      division_header d (length members)
        :: mbind (fun a => summary_lines (summary_of a)) members
  end.

Definition stats_lines (s : OverallStats.t) : list string :=
  [LF +:+ "=== OVERALL STATISTICS ===";
   "Total Attachees: " +:+ Number_toString (OverallStats.totalAttachees s);
   "Average Performance Score: " +:+ Number_toString (OverallStats.averageScore s);
   "Highest Score: " +:+ Number_toString (OverallStats.highestScore s);
   "Lowest Score: " +:+ Number_toString (OverallStats.lowestScore s)].

(** ** Sample records and rosters *)

Definition omar : Attachee.t :=
  {| Attachee.name := "Omar Haitham"; Attachee.email := "omarhaitham@example.com";
     Attachee.division := "Engineering";
     Attachee.tasks := []; Attachee.feedback := []; Attachee.performanceScore := 0 |}.

Definition omar_calls : list Attachee.Call :=
  [ Attachee.AssignTask "Develop API endpoint" "2023-06-15" 4;
    Attachee.AddFeedback "Excellent work" 95 "Supervisor A" "2023-06-16T09:00:00.000Z";
    Attachee.AssignTask "Review code quality standards" "2023-06-10" 3;
    Attachee.CompleteTask 2 "2023-06-09";
    Attachee.AddFeedback "Needs attention to detail" 82 "Supervisor B" "2023-06-17T09:00:00.000Z";
    Attachee.GetPerformanceSummary ].

Definition hub_calls : list TaskManager.Call :=
  [ TaskManager.AddAttachee "Omar Haitham" "omarhaitham@example.com" "Engineering";
    TaskManager.AddAttachee "Martin John" "martin@example.com" "Engineering";
    TaskManager.AddAttachee "Mary Brown" "maryb@example.com" "Tech Programs";
    TaskManager.AssignTaskToDivision "Engineering" "Develop API endpoint" "2023-06-15" 4;
    TaskManager.AssignTaskToAttachee "omarhaitham@example.com" "Review code" "2023-06-10" 3;
    TaskManager.OnRecord 0 (Attachee.CompleteTask 1 "2023-06-08");
    TaskManager.OnRecord 0 (Attachee.CompleteTask 2 "2023-06-09");
    TaskManager.AddFeedbackToAttachee "omarhaitham@example.com" "Excellent" 95 "Supervisor A" "t1";
    TaskManager.AddFeedbackToAttachee "martin@example.com" "Good progress" 82 "Supervisor B" "t2";
    TaskManager.AddFeedbackToAttachee "maryb@example.com" "Outstanding" 98 "Supervisor C" "t3" ].

Definition mary : Attachee.t :=
  {| Attachee.name := "Mary Brown"; Attachee.email := "maryb@example.com";
     Attachee.division := "Tech Programs";
     Attachee.tasks := []; Attachee.feedback := []; Attachee.performanceScore := 0 |}.

(** A second record with Omar's email. *)
Definition omar_again : Attachee.t :=
  {| Attachee.name := "Omar H."; Attachee.email := "omarhaitham@example.com";
     Attachee.division := "Hub Support";
     Attachee.tasks := []; Attachee.feedback := []; Attachee.performanceScore := 0 |}.

(** The calls that the script at the end of [techhub.js] makes on
    [hubManager]; [find] returns the record at position 0, on which the script
    calls [completeTask] twice.  The times are those of some run. *)
Definition example_usage : list TaskManager.Call :=
  [ TaskManager.AddAttachee "Omar Haitham" "omarhaitham@example.com" "Engineering";
    TaskManager.AddAttachee "Martin John" "martin@example.com" "Engineering";
    TaskManager.AddAttachee "Mary Brown" "maryb@example.com" "Tech Programs";
    TaskManager.AddAttachee "Diana Charles" "diana@example.com" "Radio Support";
    TaskManager.AddAttachee "Cynthia Adams" "cyadams@example.com" "Hub Support";
    TaskManager.AssignTaskToDivision "Engineering"
      "Develop API endpoint for user management" "2023-06-15" 4;
    TaskManager.AssignTaskToAttachee "omarhaitham@example.com"
      "Review code quality standards" "2023-06-10" 3;
    TaskManager.AssignTaskToAttachee "martin@example.com"
      "Optimize database queries" "2023-06-12" 5;
    TaskManager.OnRecord 0 (Attachee.CompleteTask 1 "2023-06-08");
    TaskManager.OnRecord 0 (Attachee.CompleteTask 2 "2023-06-09");
    TaskManager.AddFeedbackToAttachee "omarhaitham@example.com"
      "Excellent work on the API development!" 95 "Supervisor A"
      "2023-06-20T08:00:00.000Z";
    TaskManager.AddFeedbackToAttachee "martin@example.com"
      "Good progress, needs more attention to detail" 82 "Supervisor B"
      "2023-06-20T08:00:00.001Z";
    TaskManager.AddFeedbackToAttachee "maryb@example.com"
      "Outstanding contribution to the tech program" 98 "Supervisor C"
      "2023-06-20T08:00:00.002Z" ].

(** A roster of one record whose only feedback carries the score 150. *)
Definition roster_score_150 : TaskManager.t :=
  TaskManager.run
    [ TaskManager.AddAttachee "Omar Haitham" "omarhaitham@example.com" "Engineering";
      TaskManager.AddFeedbackToAttachee "omarhaitham@example.com" "Off the scale" 150
        "Supervisor A" "t1" ]
    TaskManager.new.

(** A roster of one record whose only feedback carries the score -5. *)
Definition roster_score_minus_5 : TaskManager.t :=
  TaskManager.run
    [ TaskManager.AddAttachee "Omar Haitham" "omarhaitham@example.com" "Engineering";
      TaskManager.AddFeedbackToAttachee "omarhaitham@example.com" "Below the scale" (-5)
        "Supervisor A" "t1" ]
    TaskManager.new.

(** * Properties *)

(** ** Rounding *)

Lemma Math_round_rounds (x : Q) : rounds_half_up x (Math_round x).
Proof.
  unfold rounds_half_up, Math_round.
  pose proof (Qfloor_le (x + (1 # 2))) as Hle.
  pose proof (Qlt_floor (x + (1 # 2))) as Hlt.
  rewrite inject_Z_plus in Hlt.
  change (inject_Z 1) with 1%Q in Hlt.
  split; lra.
Qed.

Lemma rounds_half_up_unique (x : Q) (r1 r2 : Z) :
  rounds_half_up x r1 → rounds_half_up x r2 → r1 = r2.
Proof.
  intros [H1 H2] [H3 H4].
  assert (inject_Z r1 < inject_Z r2 + 1)%Q as Ha by lra.
  assert (inject_Z r2 < inject_Z r1 + 1)%Q as Hb by lra.
  change 1%Q with (inject_Z 1) in Ha, Hb.
  rewrite <- inject_Z_plus in Ha, Hb.
  rewrite <- Zlt_Qlt in Ha, Hb. lia.
Qed.


(** ** One record *)

Section attachee.
Import Attachee.
Implicit Types (this : Attachee.t) (c : Attachee.Call) (calls : list Attachee.Call).

Lemma reduce_total (fb : list Feedback.t) (acc : Z) :
  foldl (fun sum entry => sum + Feedback.score entry) acc fb
  = acc + Zsum (Feedback.score <$> fb).
Proof.
  revert acc. induction fb as [|e fb IH]; intros acc; cbn.
  - lia.
  - rewrite IH. unfold Zsum. lia.
Qed.

Lemma new_Normal name email division this :
  new name email division = Normal this →
  division ∈ validDivisions ∧
  this = {| name := name; email := email; division := division;
            tasks := []; feedback := []; performanceScore := 0 |}.
Proof.
  unfold new, validateDivision. case_decide; [|discriminate].
  intros [= <-]. done.
Qed.

Lemma run_snoc calls c this : run (calls ++ [c]) this = call c (run calls this).
Proof. unfold run. by rewrite foldl_app. Qed.

Lemma calculatePerformanceScore_empty this :
  feedback this = [] → calculatePerformanceScore this = (Normal tt, this).
Proof. unfold calculatePerformanceScore. by intros ->. Qed.

Lemma calculatePerformanceScore_nonempty this :
  feedback this ≠ [] →
  ∃ r, calculatePerformanceScore this = (Normal tt, set_performanceScore r this) ∧
       rounds_half_up (mean (feedbackScores this)) r.
Proof.
  intros Hne. unfold calculatePerformanceScore.
  destruct (Z.eqb_spec (Z.of_nat (length (feedback this))) 0) as [H0|_].
  { destruct (feedback this); [done|]. cbn in H0. lia. }
  eexists. split; [reflexivity|].
  rewrite reduce_total, Z.add_0_l.
  unfold mean, feedbackScores. rewrite length_fmap.
  apply Math_round_rounds.
Qed.

Lemma call_fixed_fields c this :
  name (call c this) = name this ∧ email (call c this) = email this ∧
  division (call c this) = division this.
Proof.
  destruct c; cbn; try done.
  - unfold completeTask. by destruct (list_find _ _) as [[i task]|].
  - unfold addFeedback, calculatePerformanceScore. by case_match.
  - unfold calculatePerformanceScore. by case_match.
Qed.

Lemma run_fixed_fields calls this :
  name (run calls this) = name this ∧ email (run calls this) = email this ∧
  division (run calls this) = division this.
Proof.
  induction calls as [|c calls IH] using rev_ind; [done|].
  rewrite run_snoc. destruct (call_fixed_fields c (run calls this)) as (-> & -> & ->).
  exact IH.
Qed.

(** Only [addFeedback] changes the feedback list, and it appends one entry. *)
Lemma call_feedback c this :
  feedback (call c this)
  = match c with
    | AddFeedback feedbackText score reviewer now =>
        feedback this ++ [Feedback.mk feedbackText score reviewer now]
    | _ => feedback this
    end.
Proof.
  destruct c; cbn; try done.
  - unfold completeTask. by destruct (list_find _ _) as [[i task]|].
  - unfold addFeedback, calculatePerformanceScore. by case_match.
  - unfold calculatePerformanceScore. by case_match.
Qed.

Lemma call_score_matches c this :
  score_matches_feedback this → score_matches_feedback (call c this).
Proof.
  intros Hinv. destruct c; cbn.
  - exact Hinv.
  - unfold completeTask. by destruct (list_find _ _) as [[i task]|].
  - unfold addFeedback.
    set (this' := set_feedback _ this).
    destruct (calculatePerformanceScore_nonempty this') as (r & -> & Hr).
    { subst this'. cbn. by destruct (feedback this). }
    unfold score_matches_feedback, feedbackScores in *. subst this'. cbn in *.
    destruct (feedback this ++ _) eqn:E; [by destruct (feedback this)|].
    exact Hr.
  - destruct (feedback this) as [|e fb] eqn:E.
    + by rewrite calculatePerformanceScore_empty.
    + destruct (calculatePerformanceScore_nonempty this) as (r & -> & Hr).
      { by rewrite E. }
      unfold score_matches_feedback, feedbackScores in *. cbn.
      rewrite E in Hr |- *. exact Hr.
  - exact Hinv.
Qed.

Lemma run_score_matches calls this :
  score_matches_feedback this → score_matches_feedback (run calls this).
Proof.
  intros Hinv. induction calls as [|c calls IH] using rev_ind; [done|].
  rewrite run_snoc. by apply call_score_matches.
Qed.

(** On a record whose score matches its feedback, no call other than
    [addFeedback] changes the score. *)
Lemma call_score_unchanged c this :
  score_matches_feedback this → is_AddFeedback c = false →
  performanceScore (call c this) = performanceScore this.
Proof.
  intros Hinv Hc. destruct c; cbn; try done.
  - unfold completeTask. by destruct (list_find _ _) as [[i task]|].
  - destruct (feedback this) as [|e fb] eqn:E.
    + by rewrite calculatePerformanceScore_empty.
    + destruct (calculatePerformanceScore_nonempty this) as (r & -> & Hr).
      { by rewrite E. }
      cbn. unfold score_matches_feedback in Hinv. rewrite E in Hinv.
      exact (rounds_half_up_unique _ _ _ Hr Hinv).
Qed.

Lemma call_dense_ids c this : dense_ids this → dense_ids (call c this).
Proof.
  unfold dense_ids. intros Hinv. destruct c; cbn.
  - rewrite fmap_app, length_app, seq_app, fmap_app, <- Hinv. cbn.
    do 2 f_equal. lia.
  - unfold completeTask.
    destruct (list_find _ _) as [[i task]|] eqn:Hfind; [|done]. cbn.
    apply list_find_Some in Hfind as (Hi & _ & _).
    rewrite list_fmap_insert, length_insert. cbn.
    rewrite list_insert_id; [done|]. by rewrite list_lookup_fmap, Hi.
  - unfold addFeedback, calculatePerformanceScore. by case_match.
  - unfold calculatePerformanceScore. by case_match.
  - done.
Qed.

(** With identifiers [1..n], a task is the first one with its identifier. *)
Lemma dense_ids_first this i task :
  dense_ids this → tasks this !! i = Some task →
  Task.id task = Z.of_nat (S i) ∧
  ∀ j t, tasks this !! j = Some t → (j < i)%nat → Task.id t ≠ Task.id task.
Proof.
  unfold dense_ids. intros Hids Hi.
  assert (∀ k u, tasks this !! k = Some u → Task.id u = Z.of_nat (S k)) as Hat.
  { intros k u Hk.
    assert ((Task.id <$> tasks this) !! k = Some (Task.id u)) as Hl
      by (by rewrite list_lookup_fmap, Hk).
    rewrite Hids, list_lookup_fmap in Hl.
    apply lookup_lt_Some in Hk.
    rewrite lookup_seq_lt in Hl by done. cbn in Hl. by injection Hl as <-. }
  split; [by apply Hat|].
  intros j t Hj Hlt. rewrite (Hat _ _ Hj), (Hat _ _ Hi). lia.
Qed.

Lemma run_dense_ids calls this : dense_ids this → dense_ids (run calls this).
Proof.
  intros Hinv. induction calls as [|c calls IH] using rev_ind; [done|].
  rewrite run_snoc. by apply call_dense_ids.
Qed.

(** Only [assignTask] changes the number of tasks, by one. *)
Lemma call_tasks_length c this :
  length (tasks (call c this))
  = (length (tasks this) + if is_AssignTask c then 1 else 0)%nat.
Proof.
  destruct c; cbn.
  - by rewrite length_app.
  - unfold completeTask.
    destruct (list_find _ _) as [[i task]|]; cbn; [rewrite length_insert|]; lia.
  - unfold addFeedback, calculatePerformanceScore. case_match; cbn; lia.
  - unfold calculatePerformanceScore. case_match; cbn; lia.
  - lia.
Qed.

Lemma run_tasks_length calls this :
  length (tasks (run calls this))
  = (length (tasks this) + length (filter (fun c => is_AssignTask c = true) calls))%nat.
Proof.
  induction calls as [|c calls IH] using rev_ind; [cbn; lia|].
  rewrite run_snoc, call_tasks_length, IH, filter_app, length_app.
  rewrite filter_cons, filter_nil.
  case_decide as Hc; [rewrite Hc|destruct (is_AssignTask c); [done|]]; cbn; lia.
Qed.

End attachee.

(** ** Running extremes *)

Section extremes.
Implicit Types (l : list Z) (h x : Z).

Lemma running_max_ge h l : h <= foldl Z.max h l.
Proof.
  revert h. induction l as [|x l IH]; intros h; cbn; [lia|].
  specialize (IH (Z.max h x)). lia.
Qed.

Lemma running_max_bound h l : Forall (fun x => x <= foldl Z.max h l) l.
Proof.
  revert h. induction l as [|x l IH]; intros h; cbn; constructor.
  - pose proof (running_max_ge (Z.max h x) l). lia.
  - apply IH.
Qed.

Lemma running_max_origin h l : foldl Z.max h l = h ∨ foldl Z.max h l ∈ l.
Proof.
  revert h. induction l as [|x l IH]; intros h; cbn; [by left|].
  destruct (IH (Z.max h x)) as [Heq|Hin].
  - rewrite Heq. destruct (Z.max_spec h x) as [[_ ->]|[_ ->]]; [right; left|by left].
  - right. by right.
Qed.

Lemma running_max_is_max h l :
  Exists (fun x => h <= x) l → is_max (foldl Z.max h l) l.
Proof.
  intros Hex. split; [|apply running_max_bound].
  destruct (running_max_origin h l) as [Heq|Hin]; [|done].
  apply Exists_exists in Hex as (x & Hx & Hle).
  pose proof (running_max_bound h l) as Hb.
  rewrite Forall_forall in Hb. specialize (Hb x Hx).
  assert (x = foldl Z.max h l) as <- by lia. done.
Qed.

Lemma running_min_le h l : foldl Z.min h l <= h.
Proof.
  revert h. induction l as [|x l IH]; intros h; cbn; [lia|].
  specialize (IH (Z.min h x)). lia.
Qed.

Lemma running_min_bound h l : Forall (fun x => foldl Z.min h l <= x) l.
Proof.
  revert h. induction l as [|x l IH]; intros h; cbn; constructor.
  - pose proof (running_min_le (Z.min h x) l). lia.
  - apply IH.
Qed.

Lemma running_min_origin h l : foldl Z.min h l = h ∨ foldl Z.min h l ∈ l.
Proof.
  revert h. induction l as [|x l IH]; intros h; cbn; [by left|].
  destruct (IH (Z.min h x)) as [Heq|Hin].
  - rewrite Heq. destruct (Z.min_spec h x) as [[_ ->]|[_ ->]]; [by left|right; left].
  - right. by right.
Qed.

Lemma running_min_is_min h l :
  Exists (fun x => x <= h) l → is_min (foldl Z.min h l) l.
Proof.
  intros Hex. split; [|apply running_min_bound].
  destruct (running_min_origin h l) as [Heq|Hin]; [|done].
  apply Exists_exists in Hex as (x & Hx & Hle).
  pose proof (running_min_bound h l) as Hb.
  rewrite Forall_forall in Hb. specialize (Hb x Hx).
  assert (x = foldl Z.min h l) as <- by lia. done.
Qed.

Lemma is_max_unique m1 m2 l : is_max m1 l → is_max m2 l → m1 = m2.
Proof.
  intros [Hin1 Hb1] [Hin2 Hb2]. rewrite Forall_forall in Hb1, Hb2.
  specialize (Hb1 _ Hin2). specialize (Hb2 _ Hin1). lia.
Qed.

Lemma is_min_unique m1 m2 l : is_min m1 l → is_min m2 l → m1 = m2.
Proof.
  intros [Hin1 Hb1] [Hin2 Hb2]. rewrite Forall_forall in Hb1, Hb2.
  specialize (Hb1 _ Hin2). specialize (Hb2 _ Hin1). lia.
Qed.

End extremes.

(** ** The report *)

Section report.
Import TaskManager.
Implicit Types (a : Attachee.t) (l : list Attachee.t) (report : Report.t).

Lemma completed_count_filter (ts : list Task.t) :
  Z.of_nat (length (filter (fun t => Task.completed t = true) ts)) = completed_count ts.
Proof.
  induction ts as [|t ts IH]; [done|].
  rewrite filter_cons. cbn [completed_count]. rewrite <- IH.
  case_decide as Hc; destruct (Task.completed t); try done; cbn [length]; lia.
Qed.

Lemma getPerformanceSummary_summary_of a :
  Attachee.getPerformanceSummary a = (Normal (summary_of a), a).
Proof.
  unfold Attachee.getPerformanceSummary, summary_of.
  by rewrite completed_count_filter.
Qed.

Lemma report_callback_found report (total count : Z) a array :
  Report.divisions report !! Attachee.division a = Some array →
  report_callback (report, total, count) a
  = (Normal
       ({| Report.divisions :=
             <[Attachee.division a := array ++ [summary_of a]]> (Report.divisions report);
           Report.overallStats :=
             let s := Report.overallStats report in
             {| OverallStats.totalAttachees := OverallStats.totalAttachees s;
                OverallStats.averageScore := OverallStats.averageScore s;
                OverallStats.highestScore :=
                  Z.max (OverallStats.highestScore s) (Attachee.performanceScore a);
                OverallStats.lowestScore :=
                  Z.min (OverallStats.lowestScore s) (Attachee.performanceScore a) |} |},
        total + Attachee.performanceScore a, count + 1), a).
Proof.
  intros Harray. unfold report_callback.
  rewrite getPerformanceSummary_summary_of, Harray.
  destruct report as [divs [n avg hi lo]]. cbn.
  rewrite Z.gtb_ltb.
  destruct (Z.ltb_spec hi (Attachee.performanceScore a)); cbn;
    [rewrite Z.max_r by lia|rewrite Z.max_l by lia];
    (destruct (Z.ltb_spec (Attachee.performanceScore a) lo); cbn;
     [rewrite Z.min_r by lia|rewrite Z.min_l by lia]);
    reflexivity.
Qed.

Lemma report_callback_missing report (total count : Z) a :
  Report.divisions report !! Attachee.division a = None →
  ∃ e, report_callback (report, total, count) a = (Throw e, a).
Proof.
  intros Hnone. unfold report_callback.
  rewrite getPerformanceSummary_summary_of, Hnone. eauto.
Qed.

Lemma forEach_report l : ∀ report (total count : Z),
  Forall (fun a => is_Some (Report.divisions report !! Attachee.division a)) l →
  ∃ report',
    forEach report_callback (report, total, count) l
    = (Normal (report', total + Zsum (Attachee.performanceScore <$> l),
               count + Z.of_nat (length l)), l) ∧
    (∀ d, Report.divisions report' !! d
          = (fun array => array ++ (summary_of <$> filter (fun a => Attachee.division a = d) l))
              <$> Report.divisions report !! d) ∧
    OverallStats.totalAttachees (Report.overallStats report')
    = OverallStats.totalAttachees (Report.overallStats report) ∧
    OverallStats.averageScore (Report.overallStats report')
    = OverallStats.averageScore (Report.overallStats report) ∧
    OverallStats.highestScore (Report.overallStats report')
    = foldl Z.max (OverallStats.highestScore (Report.overallStats report))
        (Attachee.performanceScore <$> l) ∧
    OverallStats.lowestScore (Report.overallStats report')
    = foldl Z.min (OverallStats.lowestScore (Report.overallStats report))
        (Attachee.performanceScore <$> l).
Proof.
  induction l as [|a l IH]; intros report total count Hkeys.
  - exists report. unfold Zsum. cbn. rewrite !Z.add_0_r. repeat split; try done.
    intros d. destruct (Report.divisions report !! d) as [array|]; cbn; [|done].
      by rewrite app_nil_r.
  - apply Forall_cons in Hkeys as [[array Harray] Hkeys].
    cbn [forEach]. rewrite (report_callback_found _ _ _ _ _ Harray).
    match goal with |- context [forEach _ (?r, _, _) l] => set (report1 := r) end.
    destruct (IH report1 (total + Attachee.performanceScore a) (count + 1))
      as (report' & Hrun & Hdiv & Hn & Havg & Hhi & Hlo).
    { eapply Forall_impl; [exact Hkeys|]. intros b [arr Hb]. subst report1. cbn.
      destruct (decide (Attachee.division a = Attachee.division b)) as [<-|Hne].
      - rewrite lookup_insert_eq. eauto.
      - rewrite lookup_insert_ne by done. eauto. }
    exists report'. rewrite Hrun. repeat split; try done.
    + unfold Zsum. cbn.
      replace (count + Z.of_nat (S (length l))) with (count + 1 + Z.of_nat (length l)) by lia.
      by rewrite Z.add_assoc.
    + intros d. rewrite Hdiv, filter_cons. subst report1. cbn [Report.divisions].
      destruct (decide (Attachee.division a = d)) as [<-|Hne].
      * rewrite lookup_insert_eq, Harray. cbn. by rewrite <- app_assoc.
      * by rewrite lookup_insert_ne.
Qed.

Lemma initial_keys (d : string) :
  d ∈ Attachee.validDivisions →
  ({[ "Engineering" := []; "Tech Programs" := [];
      "Radio Support" := []; "Hub Support" := [] ]} : gmap string (list Summary.t)) !! d
  = Some [].
Proof.
  unfold Attachee.validDivisions. rewrite !elem_of_cons, elem_of_nil.
  intros [->|[->|[->|[->|[]]]]]; reflexivity.
Qed.

Lemma report_callback_state locals a : snd (report_callback locals a) = a.
Proof.
  destruct locals as [[report total] count].
  destruct (Report.divisions report !! Attachee.division a) as [array|] eqn:E.
  - by rewrite (report_callback_found _ _ _ _ _ E).
  - by destruct (report_callback_missing _ total count _ E) as [e ->].
Qed.

Lemma forEach_report_state l : ∀ locals, snd (forEach report_callback locals l) = l.
Proof.
  induction l as [|a l IH]; intros locals; [done|].
  cbn [forEach]. pose proof (report_callback_state locals a) as Ha.
  destruct (report_callback locals a) as [[locals'|e] a']; cbn in Ha; subst a'.
  - specialize (IH locals'). destruct (forEach report_callback locals' l) as [c l'].
    cbn in IH |- *. by subst l'.
  - done.
Qed.

(** The report reads the roster and leaves it as it was, whatever it holds. *)
Lemma generatePerformanceReport_state tm : snd (generatePerformanceReport tm) = tm.
Proof.
  destruct tm as [l]. unfold generatePerformanceReport. cbv zeta. cbn [attachees].
  match goal with |- context [forEach report_callback ?acc l] =>
    pose proof (forEach_report_state l acc) as Hl;
    destruct (forEach report_callback acc l) as [[[[report total] count]|e] l']
  end; cbn in Hl |- *; by subst l'.
Qed.

(** The report of a roster whose records all carry one of the four divisions. *)
Lemma generatePerformanceReport_valid tm :
  Forall (fun a => Attachee.division a ∈ Attachee.validDivisions) (attachees tm) →
  ∃ r, generatePerformanceReport tm = (Normal r, tm) ∧
    (∀ d, d ∈ Attachee.validDivisions →
       Report.divisions r !! d
       = Some (summary_of <$> filter (fun a => Attachee.division a = d) (attachees tm))) ∧
    OverallStats.totalAttachees (Report.overallStats r)
    = Z.of_nat (length (attachees tm)) ∧
    OverallStats.averageScore (Report.overallStats r)
    = (if decide (attachees tm = []) then 0
       else Math_round (inject_Z (Zsum (rosterScores tm))
                        / inject_Z (Z.of_nat (length (attachees tm))))) ∧
    OverallStats.highestScore (Report.overallStats r)
    = (if decide (attachees tm = []) then 0 else foldl Z.max 0 (rosterScores tm)) ∧
    OverallStats.lowestScore (Report.overallStats r)
    = (if decide (attachees tm = []) then 0 else foldl Z.min 100 (rosterScores tm)).
Proof.
  destruct tm as [l]. unfold rosterScores. cbn [attachees]. intros Hvalid.
  unfold generatePerformanceReport. cbv zeta. cbn [attachees].
  match goal with |- context [forEach report_callback (?report, 0, 0) l] =>
    destruct (forEach_report l report 0 0)
      as (report' & -> & Hdiv & Hn & Havg & Hhi & Hlo)
  end.
  { eapply Forall_impl; [exact Hvalid|]. intros a Ha. cbn [Report.divisions].
    rewrite (initial_keys _ Ha). eauto. }
  cbn [Report.divisions Report.overallStats OverallStats.totalAttachees
       OverallStats.averageScore OverallStats.highestScore
       OverallStats.lowestScore] in Hdiv, Hn, Havg, Hhi, Hlo.
  rewrite !Z.add_0_l.
  assert (∀ d, d ∈ Attachee.validDivisions →
            Report.divisions report' !! d
            = Some (summary_of <$> filter (fun a => Attachee.division a = d) l))
    as Hkeys.
  { intros d Hd. by rewrite Hdiv, (initial_keys _ Hd). }
  destruct l as [|a l].
  - eexists. split; [reflexivity|]. cbn. done.
  - replace (Z.of_nat (length (a :: l)) >? 0) with true
      by (symmetry; apply Z.gtb_lt; cbn [length]; lia).
    eexists. split; [reflexivity|].
    unfold set_averageScore. cbn [Report.divisions Report.overallStats
       OverallStats.totalAttachees OverallStats.averageScore
       OverallStats.highestScore OverallStats.lowestScore].
    rewrite Hhi, Hlo, Hn. done.
Qed.

End report.

(** ** What every call on the roster preserves *)

Section roster_invariant.
Import TaskManager.
Variable P : Attachee.t → Prop.
Hypothesis P_new : ∀ name email division a,
  Attachee.new name email division = Normal a → P a.
Hypothesis P_call : ∀ c a, P a → P (Attachee.call c a).

Lemma forEach_assignTask (division taskDescription deadline : string) (priority : Z)
    (l : list Attachee.t) :
  forEach
    (fun _ attachee =>
       if decide (Attachee.division attachee = division)
       then Attachee.assignTask taskDescription deadline priority attachee
       else (Normal tt, attachee))
    tt l
  = (Normal tt,
     (fun a => if decide (Attachee.division a = division)
               then Attachee.call (Attachee.AssignTask taskDescription deadline priority) a
               else a) <$> l).
Proof.
  induction l as [|a l IH]; [done|].
  cbn [forEach]. rewrite fmap_cons.
  destruct (decide (Attachee.division a = division)); cbn; by rewrite IH.
Qed.

Lemma call_Forall c tm : Forall P (attachees tm) → Forall P (attachees (call c tm)).
Proof.
  intros Hall. destruct c; cbn [call].
  - unfold addAttachee.
    destruct (Attachee.new name email division) as [a|e] eqn:Hnew; cbn; [|done].
    apply Forall_app. split; [done|]. constructor; [|done]. by eapply P_new.
  - cbn. rewrite Forall_forall in Hall |- *.
    intros a [_ Ha]%list_elem_of_filter. by apply Hall.
  - done.
  - unfold assignTaskToDivision. rewrite forEach_assignTask. cbn [snd attachees].
    apply Forall_fmap. eapply Forall_impl; [exact Hall|]. intros a Ha.
    unfold compose. case_decide; [by apply P_call|done].
  - unfold assignTaskToAttachee.
    destruct (list_find _ _) as [[i a]|] eqn:Hfind; [|done]. cbn.
    apply list_find_Some in Hfind as (Hi & _ & _).
    apply Forall_insert; [done|].
    apply (P_call (Attachee.AssignTask taskDescription deadline priority)).
    by eapply (Forall_lookup_1 P).
  - unfold addFeedbackToAttachee.
    destruct (list_find _ _) as [[i a]|] eqn:Hfind; [|done].
    apply list_find_Some in Hfind as (Hi & _ & _).
    pose proof (P_call (Attachee.AddFeedback feedbackText score reviewer now) a) as Ha.
    cbn in Ha.
    destruct (Attachee.addFeedback feedbackText score reviewer now a) as [c a'].
    cbn in Ha |- *. apply Forall_insert; [done|]. apply Ha.
    by eapply (Forall_lookup_1 P).
  - by rewrite generatePerformanceReport_state.
  - destruct (attachees tm !! i) as [a|] eqn:Hi; [|done]. cbn.
    apply Forall_insert; [done|]. apply P_call. by eapply (Forall_lookup_1 P).
Qed.

Lemma run_Forall calls : Forall P (attachees (run calls new)).
Proof.
  induction calls as [|c calls IH] using rev_ind; [by constructor|].
  unfold run in *. rewrite foldl_app. cbn. by apply call_Forall.
Qed.

End roster_invariant.

Lemma new_record_ok name email division a :
  Attachee.new name email division = Normal a → record_ok a.
Proof. intros [Hd ->]%new_Normal. by repeat split. Qed.

Lemma call_record_ok c a : record_ok a → record_ok (Attachee.call c a).
Proof.
  intros (Hd & Hs & Hi). repeat split.
  - by destruct (call_fixed_fields c a) as (_ & _ & ->).
  - by apply call_score_matches.
  - by apply call_dense_ids.
Qed.

Lemma run_record_ok calls :
  Forall record_ok (TaskManager.attachees (TaskManager.run calls TaskManager.new)).
Proof. apply run_Forall; [exact new_record_ok|exact call_record_ok]. Qed.

(** ** Scores in the documented range 0..100 *)

Section documented_range.
Implicit Types (l : list Z).

Lemma Zsum_bounds l :
  Forall (fun x => 0 <= x <= 100) l → 0 <= Zsum l <= 100 * Z.of_nat (length l).
Proof.
  induction 1 as [|x l Hx _ IH]; unfold Zsum in *; cbn [foldr length]; lia.
Qed.

Lemma mean_bounds l :
  l ≠ [] → Forall (fun x => 0 <= x <= 100) l → (0 <= mean l)%Q ∧ (mean l <= 100)%Q.
Proof.
  intros Hne Hall. pose proof (Zsum_bounds l Hall) as [Hlo Hhi].
  assert (0 < Z.of_nat (length l)) as Hn by (destruct l; [done|cbn [length]; lia]).
  assert (0 < inject_Z (Z.of_nat (length l)))%Q as Hq
    by (change 0%Q with (inject_Z 0); by rewrite <- Zlt_Qlt).
  unfold mean. split.
  - apply Qle_shift_div_l; [exact Hq|]. rewrite Qmult_0_l.
    change 0%Q with (inject_Z 0). by rewrite <- Zle_Qle.
  - apply Qle_shift_div_r; [exact Hq|].
    change 100%Q with (inject_Z 100). by rewrite <- inject_Z_mult, <- Zle_Qle.
Qed.

Lemma rounds_half_up_bounds (x : Q) (r : Z) :
  (0 <= x)%Q → (x <= 100)%Q → rounds_half_up x r → 0 <= r <= 100.
Proof.
  intros H0 H100 [Hlo Hhi].
  assert (inject_Z (-1) < inject_Z r)%Q as Ha by (change (inject_Z (-1)) with (-1)%Q; lra).
  assert (inject_Z r < inject_Z 101)%Q as Hb by (change (inject_Z 101) with 101%Q; lra).
  rewrite <- Zlt_Qlt in Ha, Hb. lia.
Qed.

(** Feedback scores between 0 and 100 give a record score between 0 and 100. *)
Lemma performanceScore_in_range (a : Attachee.t) :
  score_matches_feedback a →
  Forall (fun x => 0 <= x <= 100) (feedbackScores a) →
  0 <= Attachee.performanceScore a <= 100.
Proof.
  unfold score_matches_feedback, feedbackScores. intros Hs Hall.
  destruct (Attachee.feedback a) as [|e fb]; [lia|].
  assert (Feedback.score <$> e :: fb ≠ []) as Hne by done.
  destruct (mean_bounds _ Hne Hall) as [H0 H100].
  by eapply rounds_half_up_bounds.
Qed.

End documented_range.

(** [assignTaskToDivision] changes the records that [getAttacheesByDivision]
    returns, each by one [assignTask], and no other record. *)
Lemma assignTaskToDivision_records
    (division taskDescription deadline : string) (priority : Z) (tm : TaskManager.t) :
  TaskManager.assignTaskToDivision division taskDescription deadline priority tm
  = (Normal tt,
     {| TaskManager.attachees :=
          (fun a => if decide (Attachee.division a = division)
                    then snd (Attachee.assignTask taskDescription deadline priority a)
                    else a) <$> TaskManager.attachees tm |}).
Proof.
  unfold TaskManager.assignTaskToDivision. rewrite forEach_assignTask. reflexivity.
Qed.

(** * The claims *)

(** C1.  A record built by the constructor and changed by any sequence of
    calls of its methods carries the score 0 while it holds no feedback, and
    otherwise, when its feedback scores are in the range in which the program
    adds and divides exactly ([exact_range]: their absolute values add up to
    less than [2^52]), the arithmetic mean of the scores of its feedback
    entries rounded to the nearest integer, a half going up.  [addFeedback]
    appends the entry and leaves the score recomputed when it returns; no
    other call changes the score or the feedback list.  Feedback scores 95 and
    82 (mean 88.5) give the score 89.  The same holds of every record of a
    roster, whatever calls were made on the roster and on its records. *)
Theorem performanceScore_is_rounded_mean
    (name email division : string) (this0 : Attachee.t) (calls : list Attachee.Call)
    (hub : list TaskManager.Call) :
  Attachee.new name email division = Normal this0 →
  let this := Attachee.run calls this0 in
  (Attachee.feedback this = [] → Attachee.performanceScore this = 0) ∧
  (Attachee.feedback this ≠ [] → exact_range (feedbackScores this) →
     rounds_half_up (mean (feedbackScores this)) (Attachee.performanceScore this)) ∧
  (∀ feedbackText score reviewer now,
     exact_range (feedbackScores this ++ [score]) →
     ∃ this', Attachee.addFeedback feedbackText score reviewer now this = (Normal tt, this') ∧
       feedbackScores this' = feedbackScores this ++ [score] ∧
       rounds_half_up (mean (feedbackScores this')) (Attachee.performanceScore this')) ∧
  (∀ c, Attachee.is_AddFeedback c = false →
     Attachee.performanceScore (Attachee.call c this) = Attachee.performanceScore this ∧
     Attachee.feedback (Attachee.call c this) = Attachee.feedback this) ∧
  (∀ text1 reviewer1 now1 text2 reviewer2 now2,
     Attachee.performanceScore
       (Attachee.run [Attachee.AddFeedback text1 95 reviewer1 now1;
                      Attachee.AddFeedback text2 82 reviewer2 now2] this0) = 89) ∧
  (∀ a, a ∈ TaskManager.attachees (TaskManager.run hub TaskManager.new) →
     exact_range (feedbackScores a) → score_matches_feedback a).
Proof.
  intros Hnew this.
  assert (score_matches_feedback this) as Hinv.
  { apply run_score_matches. apply new_Normal in Hnew as [_ ->]. reflexivity. }
  split; [|split; [|split; [|split; [|split]]]].
  - intros Hfb. unfold score_matches_feedback in Hinv. by rewrite Hfb in Hinv.
  - intros Hfb _. unfold score_matches_feedback in Hinv.
    by destruct (Attachee.feedback this).
  - intros feedbackText score reviewer now _.
    pose proof (call_score_matches
                  (Attachee.AddFeedback feedbackText score reviewer now) this Hinv) as Hs.
    pose proof (call_feedback
                  (Attachee.AddFeedback feedbackText score reviewer now) this) as Hf.
    cbn [Attachee.call] in Hs, Hf.
    assert (fst (Attachee.addFeedback feedbackText score reviewer now this) = Normal tt) as Hc.
    { unfold Attachee.addFeedback, Attachee.calculatePerformanceScore. by case_match. }
    destruct (Attachee.addFeedback feedbackText score reviewer now this) as [c this'].
    cbn in Hs, Hf, Hc. subst c. exists this'. split; [done|].
    unfold score_matches_feedback, feedbackScores in *. rewrite Hf in Hs |- *.
    split; [by rewrite fmap_app|].
    destruct (Attachee.feedback this ++ _) eqn:E; [by destruct (Attachee.feedback this)|].
    exact Hs.
  - intros c Hc. split; [by apply call_score_unchanged|].
    rewrite call_feedback. by destruct c.
  - intros. apply new_Normal in Hnew as [_ ->]. reflexivity.
  - intros a Ha _.
    pose proof (run_record_ok hub) as Hok. rewrite Forall_forall in Hok.
    by destruct (Hok a Ha) as (_ & Hs & _).
Qed.

Lemma performanceScore_is_rounded_mean_witness :
  Attachee.new "Omar Haitham" "omarhaitham@example.com" "Engineering" = Normal omar ∧
  let this := Attachee.run omar_calls omar in
  exact_range (feedbackScores this) ∧
  rounds_half_up (mean (feedbackScores this)) (Attachee.performanceScore this) ∧
  (∀ feedbackText reviewer now,
     ∃ this', Attachee.addFeedback feedbackText 70 reviewer now this = (Normal tt, this') ∧
       feedbackScores this' = feedbackScores this ++ [70] ∧
       rounds_half_up (mean (feedbackScores this')) (Attachee.performanceScore this')) ∧
  (∀ a, a ∈ TaskManager.attachees (TaskManager.run hub_calls TaskManager.new) →
     exact_range (feedbackScores a) → score_matches_feedback a).
Proof.
  split; [reflexivity|].
  destruct (performanceScore_is_rounded_mean
              "Omar Haitham" "omarhaitham@example.com" "Engineering" omar omar_calls
              hub_calls eq_refl) as (_ & Hmean & Hadd & _ & _ & Hhub).
  split; [reflexivity|]. split; [|split].
  - apply Hmean; [discriminate|reflexivity].
  - intros feedbackText reviewer now. apply Hadd. reflexivity.
  - exact Hhub.
Defined.

(** C7.  [assignTask] appends one task whose identifier is the number of tasks
    before the call plus one, not completed and with no completion date, and
    changes nothing else.  Hence a record built by the constructor and then
    changed by any sequence of calls, [n] of them [assignTask], holds the
    identifiers [1..n] in order; and the same holds of every record of a
    roster, whatever calls were made on the roster and on its other records. *)
Theorem task_ids_dense
    (name email division : string) (this0 : Attachee.t)
    (calls : list Attachee.Call) (hub : list TaskManager.Call) :
  Attachee.new name email division = Normal this0 →
  let this := Attachee.run calls this0 in
  let n := length (filter (fun c => Attachee.is_AssignTask c = true) calls) in
  (∀ taskDescription deadline priority,
     ∃ this' task, Attachee.assignTask taskDescription deadline priority this = (Normal tt, this') ∧
       Attachee.tasks this' = Attachee.tasks this ++ [task] ∧
       Task.id task = Z.of_nat (length (Attachee.tasks this)) + 1 ∧
       Task.completed task = false ∧ Task.completionDate task = None ∧
       Task.description task = taskDescription ∧ Task.deadline task = deadline ∧
       Task.priority task = priority ∧
       Attachee.feedback this' = Attachee.feedback this ∧
       Attachee.performanceScore this' = Attachee.performanceScore this) ∧
  Task.id <$> Attachee.tasks this = Z.of_nat <$> seq 1 n ∧
  (∀ a, a ∈ TaskManager.attachees (TaskManager.run hub TaskManager.new) →
     Task.id <$> Attachee.tasks a = Z.of_nat <$> seq 1 (length (Attachee.tasks a))).
Proof.
  intros Hnew this n. split; [|split].
  - intros. do 2 eexists. split; [reflexivity|]. by cbn.
  - apply new_Normal in Hnew as [_ Heq].
    assert (dense_ids this) as Hids.
    { apply run_dense_ids. by rewrite Heq. }
    unfold dense_ids in Hids. rewrite Hids. do 2 f_equal.
    subst this n. rewrite run_tasks_length. by rewrite Heq.
  - intros a Ha.
    pose proof (run_record_ok hub) as Hok. rewrite Forall_forall in Hok.
    by destruct (Hok a Ha) as (_ & _ & Hids).
Qed.

Lemma task_ids_dense_witness :
  Attachee.new "Omar Haitham" "omarhaitham@example.com" "Engineering" = Normal omar ∧
  Task.id <$> Attachee.tasks (Attachee.run omar_calls omar) = [1; 2] ∧
  (∀ a, a ∈ TaskManager.attachees (TaskManager.run hub_calls TaskManager.new) →
     Task.id <$> Attachee.tasks a = Z.of_nat <$> seq 1 (length (Attachee.tasks a))).
Proof.
  split; [reflexivity|].
  destruct (task_ids_dense "Omar Haitham" "omarhaitham@example.com" "Engineering"
              omar omar_calls hub_calls eq_refl) as (_ & Hids & Hhub).
  split; [exact Hids|exact Hhub].
Defined.

(** C8.  [getPerformanceSummary] returns the name, the division and the score
    of the record, the number of its tasks, the number of its completed tasks,
    the difference of the two, and the number of its feedback entries, and
    leaves the record as it was. *)
Theorem getPerformanceSummary_reads (this : Attachee.t) :
  ∃ s, Attachee.getPerformanceSummary this = (Normal s, this) ∧
    Summary.name s = Attachee.name this ∧
    Summary.division s = Attachee.division this ∧
    Summary.performanceScore s = Attachee.performanceScore this ∧
    Summary.tasksAssigned s = Z.of_nat (length (Attachee.tasks this)) ∧
    Summary.tasksCompleted s = completed_count (Attachee.tasks this) ∧
    Summary.tasksPending s = Summary.tasksAssigned s - Summary.tasksCompleted s ∧
    Summary.feedbackCount s = Z.of_nat (length (Attachee.feedback this)).
Proof.
  exists (summary_of this). split; [apply getPerformanceSummary_summary_of|].
  by cbn.
Qed.

(** C9.  When the first task with the given identifier is already completed,
    [completeTask] leaves it completed and sets its completion date to the new
    date; the other tasks and the other fields of the record stay as they
    were.  Calling [completeTask] a second time with the same identifier and
    date changes nothing more, whatever the record.  (In a record that the
    constructor built, a task is the first one with its identifier:
    [dense_ids_first].) *)
Theorem completeTask_again
    (this : Attachee.t) (taskId : Z) (d2 : string) (i : nat) (task : Task.t) :
  Attachee.tasks this !! i = Some task →
  Task.id task = taskId →
  (∀ j t, Attachee.tasks this !! j = Some t → (j < i)%nat → Task.id t ≠ taskId) →
  Task.completed task = true →
  (∃ this' task',
     Attachee.completeTask taskId d2 this = (Normal tt, this') ∧
     Attachee.tasks this' !! i = Some task' ∧
     Task.completed task' = true ∧ Task.completionDate task' = Some d2 ∧
     Task.id task' = Task.id task ∧ Task.description task' = Task.description task ∧
     Task.deadline task' = Task.deadline task ∧ Task.priority task' = Task.priority task ∧
     (∀ j, j ≠ i → Attachee.tasks this' !! j = Attachee.tasks this !! j) ∧
     length (Attachee.tasks this') = length (Attachee.tasks this) ∧
     Attachee.name this' = Attachee.name this ∧
     Attachee.email this' = Attachee.email this ∧
     Attachee.division this' = Attachee.division this ∧
     Attachee.feedback this' = Attachee.feedback this ∧
     Attachee.performanceScore this' = Attachee.performanceScore this ∧
     Attachee.completeTask taskId d2 this' = (Normal tt, this')) ∧
  (∀ (that : Attachee.t) (id : Z) (d : string),
     Attachee.completeTask id d (snd (Attachee.completeTask id d that))
     = Attachee.completeTask id d that).
Proof.
  assert (∀ (that : Attachee.t) (id : Z) (d : string),
            Attachee.completeTask id d (snd (Attachee.completeTask id d that))
            = Attachee.completeTask id d that) as Hidem.
  { intros that id d. unfold Attachee.completeTask at 2 3.
    destruct (list_find _ (Attachee.tasks that)) as [[k t]|] eqn:Hfind; cbn [snd].
    - unfold Attachee.completeTask. cbn [Attachee.tasks Attachee.set_tasks].
      pose proof Hfind as (Hk & Hid & Hfirst)%list_find_Some.
      set (t' := Task.mk (Task.id t) _ _ _ true (Some d)).
      assert (list_find (fun x => Task.id x = id) (<[k := t']> (Attachee.tasks that))
              = Some (k, t')) as ->.
      { apply list_find_Some. split; [|split].
        - apply list_lookup_insert_eq. by eapply lookup_lt_Some.
        - done.
        - intros j y Hj Hlt. rewrite list_lookup_insert_ne in Hj by lia. eauto. }
      cbn. by rewrite list_insert_insert_eq.
    - unfold Attachee.completeTask. by rewrite Hfind. }
  intros Hi Hid Hfirst Hdone. split; [|exact Hidem].
  assert (list_find (fun t => Task.id t = taskId) (Attachee.tasks this) = Some (i, task))
    as Hfind by (apply list_find_Some; eauto).
  pose proof (Hidem this taskId d2) as Hagain.
  unfold Attachee.completeTask at 2 3 in Hagain. rewrite Hfind in Hagain. cbn [snd] in Hagain.
  unfold Attachee.completeTask at 1. rewrite Hfind.
  do 2 eexists. split; [reflexivity|]. cbn [Attachee.tasks Attachee.set_tasks].
  split; [apply list_lookup_insert_eq; by eapply lookup_lt_Some|].
  cbn. repeat split; try done.
  - intros j Hj. by rewrite list_lookup_insert_ne.
  - by rewrite length_insert.
Qed.

Lemma completeTask_again_witness :
  let this := Attachee.run omar_calls omar in
  ∃ this' task',
    Attachee.completeTask 2 "2023-06-20" this = (Normal tt, this') ∧
    Attachee.tasks this' !! 1%nat = Some task' ∧
    Task.completed task' = true ∧ Task.completionDate task' = Some "2023-06-20".
Proof.
  intros this.
  destruct (completeTask_again this 2 "2023-06-20" 1
              (Task.mk 2 "Review code quality standards" "2023-06-10" 3 true
                 (Some "2023-06-09")))
    as [(this' & task' & H1 & H2 & H3 & H4 & _) _].
  - reflexivity.
  - reflexivity.
  - intros j t Hj Hlt. assert (j = 0%nat) as -> by lia.
    vm_compute in Hj. injection Hj as <-. vm_compute. discriminate.
  - reflexivity.
  - exists this', task'. auto.
Defined.

(** C6.  [completeTask] with an identifier that no task of the record carries,
    and [assignTaskToAttachee] and [addFeedbackToAttachee] with an email that
    no record of the roster carries, return normally and leave the record,
    respectively the roster, exactly as it was. *)
Theorem not_found_is_silent
    (this : Attachee.t) (tm : TaskManager.t) (taskId : Z) (completionDate : string)
    (email taskDescription deadline feedbackText reviewer now : string)
    (priority score : Z) :
  Forall (fun t => Task.id t ≠ taskId) (Attachee.tasks this) →
  Forall (fun a => Attachee.email a ≠ email) (TaskManager.attachees tm) →
  Attachee.completeTask taskId completionDate this = (Normal tt, this) ∧
  TaskManager.assignTaskToAttachee email taskDescription deadline priority tm
  = (Normal tt, tm) ∧
  TaskManager.addFeedbackToAttachee email feedbackText score reviewer now tm
  = (Normal tt, tm).
Proof.
  intros Hid Hemail.
  apply (list_find_None (fun t => Task.id t = taskId)) in Hid.
  apply (list_find_None (fun a => Attachee.email a = email)) in Hemail.
  unfold Attachee.completeTask, TaskManager.assignTaskToAttachee,
    TaskManager.addFeedbackToAttachee.
  by rewrite Hid, Hemail.
Qed.

Lemma not_found_is_silent_witness :
  let this := Attachee.run omar_calls omar in
  let tm := TaskManager.run hub_calls TaskManager.new in
  Attachee.completeTask 7 "2023-06-30" this = (Normal tt, this) ∧
  TaskManager.assignTaskToAttachee "nobody@example.com" "Write tests" "2023-07-01" 2 tm
  = (Normal tt, tm) ∧
  TaskManager.addFeedbackToAttachee "nobody@example.com" "Fine" 70 "Supervisor D" "t4" tm
  = (Normal tt, tm).
Proof.
  intros this tm.
  apply (not_found_is_silent this tm 7 "2023-06-30" "nobody@example.com").
  - vm_compute. repeat constructor; discriminate.
  - vm_compute. repeat constructor; discriminate.
Defined.

Lemma list_find_first {A} (P : A → Prop) `{!∀ x, Decision (P x)} (pre post : list A) (a : A) :
  Forall (fun x => ¬ P x) pre → P a →
  list_find P (pre ++ a :: post) = Some (length pre, a).
Proof.
  intros Hpre Ha. apply list_find_Some. split; [|split; [done|]].
  - by rewrite lookup_app_r, Nat.sub_diag.
  - intros j y Hj Hlt. rewrite lookup_app_l in Hj by done.
    rewrite Forall_forall in Hpre. apply Hpre. by eapply list_elem_of_lookup_2.
Qed.

Lemma insert_first {A} (pre post : list A) (a b : A) :
  <[length pre := b]> (pre ++ a :: post) = pre ++ b :: post.
Proof. rewrite insert_app_r_alt by done. by rewrite Nat.sub_diag. Qed.

(** C10.  [addAttachee] does not look at the emails already in the roster.
    When several records carry the same email, [assignTaskToAttachee] and
    [addFeedbackToAttachee] change the first of them in roster order and leave
    every other record, the later ones with that email included, as it was;
    [removeAttachee] removes all of them in one call and keeps the rest in
    order. *)
Theorem duplicate_emails
    (pre post : list Attachee.t) (a : Attachee.t)
    (email taskDescription deadline feedbackText reviewer now : string)
    (priority score : Z) :
  Forall (fun x => Attachee.email x ≠ email) pre →
  Attachee.email a = email →
  let tm := {| TaskManager.attachees := pre ++ a :: post |} in
  (∃ a', Attachee.assignTask taskDescription deadline priority a = (Normal tt, a') ∧
     TaskManager.assignTaskToAttachee email taskDescription deadline priority tm
     = (Normal tt, {| TaskManager.attachees := pre ++ a' :: post |})) ∧
  (∃ a', Attachee.addFeedback feedbackText score reviewer now a = (Normal tt, a') ∧
     TaskManager.addFeedbackToAttachee email feedbackText score reviewer now tm
     = (Normal tt, {| TaskManager.attachees := pre ++ a' :: post |})) ∧
  (∃ rest, TaskManager.removeAttachee email tm
           = (Normal tt, {| TaskManager.attachees := pre ++ rest |}) ∧
     Forall (fun x => Attachee.email x ≠ email) (pre ++ rest) ∧
     rest = filter (fun x => Attachee.email x ≠ email) post) ∧
  (∀ name division (roster : TaskManager.t),
     division ∈ Attachee.validDivisions →
     ∃ new, TaskManager.addAttachee name email division roster
            = (Normal new, {| TaskManager.attachees := TaskManager.attachees roster ++ [new] |}) ∧
       Attachee.email new = email).
Proof.
  intros Hpre Ha tm.
  assert (list_find (fun x => Attachee.email x = email) (pre ++ a :: post)
          = Some (length pre, a)) as Hfind.
  { apply list_find_first; [|done]. eapply Forall_impl; [exact Hpre|]. naive_solver. }
  split; [|split; [|split]].
  - eexists. split; [reflexivity|].
    unfold TaskManager.assignTaskToAttachee. subst tm. cbn [TaskManager.attachees].
    rewrite Hfind. cbn. by rewrite insert_first.
  - assert (fst (Attachee.addFeedback feedbackText score reviewer now a) = Normal tt) as Hc.
    { unfold Attachee.addFeedback, Attachee.calculatePerformanceScore. by case_match. }
    unfold TaskManager.addFeedbackToAttachee. subst tm. cbn [TaskManager.attachees].
    rewrite Hfind.
    destruct (Attachee.addFeedback feedbackText score reviewer now a) as [c a'].
    cbn in Hc. subst c. exists a'. split; [done|]. by rewrite insert_first.
  - eexists. split; [|split; [|reflexivity]].
    + unfold TaskManager.removeAttachee. subst tm. cbn [TaskManager.attachees].
      rewrite filter_app, filter_cons, decide_False by naive_solver.
      do 3 f_equal. clear -Hpre.
      induction Hpre as [|x pre Hx _ IH]; [done|].
      by rewrite filter_cons, decide_True, IH.
    + apply Forall_app. split; [done|].
      apply Forall_forall. by intros x [Hx _]%list_elem_of_filter.
  - intros name division roster Hd. unfold TaskManager.addAttachee, Attachee.new,
      Attachee.validateDivision. rewrite decide_True by done.
    eexists. split; [reflexivity|done].
Qed.

Lemma duplicate_emails_witness :
  let tm := {| TaskManager.attachees := [mary; omar; omar_again] |} in
  (∃ a', TaskManager.assignTaskToAttachee "omarhaitham@example.com" "Write tests"
           "2023-07-01" 2 tm
         = (Normal tt, {| TaskManager.attachees := [mary; a'; omar_again] |})) ∧
  (∃ a', TaskManager.addFeedbackToAttachee "omarhaitham@example.com" "Fine" 70
           "Supervisor D" "t4" tm
         = (Normal tt, {| TaskManager.attachees := [mary; a'; omar_again] |})) ∧
  TaskManager.removeAttachee "omarhaitham@example.com" tm
  = (Normal tt, {| TaskManager.attachees := [mary] |}).
Proof.
  intros tm.
  destruct (duplicate_emails [mary] [omar_again] omar "omarhaitham@example.com"
              "Write tests" "2023-07-01" "Fine" "Supervisor D" "t4" 2 70)
    as ((a1 & _ & H1) & (a2 & _ & H2) & (rest & H3 & _ & Hrest) & _).
  - repeat constructor. discriminate.
  - reflexivity.
  - split; [by exists a1|]. split; [by exists a2|].
    rewrite Hrest in H3. exact H3.
Defined.

(** C5.  The constructor fails exactly when the division is not one of
    Engineering, Tech Programs, Radio Support and Hub Support, and the error it
    throws carries the message that lists these four.  [addAttachee] throws
    that same error and leaves the roster as it was; when the division is one
    of the four, it returns a record with no tasks, no feedback and score 0,
    appended to the roster. *)
Theorem invalid_division_rejected (name email division : string) (tm : TaskManager.t) :
  (division ∈ Attachee.validDivisions ↔
     division = "Engineering" ∨ division = "Tech Programs" ∨
     division = "Radio Support" ∨ division = "Hub Support") ∧
  ((∃ e, Attachee.new name email division = Throw e) ↔
     division ∉ Attachee.validDivisions) ∧
  (division ∉ Attachee.validDivisions →
     Attachee.new name email division = Throw InvalidDivisionError ∧
     TaskManager.addAttachee name email division tm = (Throw InvalidDivisionError, tm)) ∧
  (division ∈ Attachee.validDivisions →
     let a := {| Attachee.name := name; Attachee.email := email;
                 Attachee.division := division; Attachee.tasks := [];
                 Attachee.feedback := []; Attachee.performanceScore := 0 |} in
     Attachee.new name email division = Normal a ∧
     TaskManager.addAttachee name email division tm
     = (Normal a, {| TaskManager.attachees := TaskManager.attachees tm ++ [a] |})).
Proof.
  split; [|split; [|split]].
  - unfold Attachee.validDivisions. rewrite !elem_of_cons, elem_of_nil. tauto.
  - unfold Attachee.new, Attachee.validateDivision. split.
    + intros [e He]. by case_decide.
    + intros Hd. rewrite decide_False by done. eauto.
  - intros Hd. unfold TaskManager.addAttachee, Attachee.new, Attachee.validateDivision.
    by rewrite decide_False.
  - intros Hd a. unfold TaskManager.addAttachee, Attachee.new, Attachee.validateDivision.
    by rewrite decide_True.
Qed.

Lemma invalid_division_rejected_witness :
  let tm := TaskManager.run hub_calls TaskManager.new in
  TaskManager.addAttachee "Ann Lee" "ann@example.com" "Marketing" tm
  = (Throw (Error "Invalid division. Must be one of: Engineering, Tech Programs, Radio Support, Hub Support"),
     tm) ∧
  Attachee.new "Mary Brown" "maryb@example.com" "Tech Programs" = Normal mary.
Proof.
  intros tm.
  destruct (invalid_division_rejected "Ann Lee" "ann@example.com" "Marketing" tm)
    as (_ & _ & Hbad & _).
  destruct (invalid_division_rejected "Mary Brown" "maryb@example.com" "Tech Programs" tm)
    as (_ & _ & _ & Hgood).
  split.
  - apply Hbad. vm_compute. intros H. repeat (inversion H as [|? ? ? H']; clear H; rename H' into H).
  - apply Hgood. vm_compute. do 1 constructor. constructor.
Defined.

(** C3.  On an empty roster the report counts 0 records and has average,
    highest and lowest score 0: the initial value 100 of the running minimum
    is not what the report shows. *)
Theorem report_of_empty_roster :
  ∃ r, TaskManager.generatePerformanceReport TaskManager.new = (Normal r, TaskManager.new) ∧
    OverallStats.totalAttachees (Report.overallStats r) = 0 ∧
    OverallStats.averageScore (Report.overallStats r) = 0 ∧
    OverallStats.highestScore (Report.overallStats r) = 0 ∧
    OverallStats.lowestScore (Report.overallStats r) = 0.
Proof.
  destruct (generatePerformanceReport_valid TaskManager.new)
    as (r & Hr & _ & Hn & Havg & Hhi & Hlo); [constructor|].
  exists r. by repeat split.
Qed.

(** C4.  For every roster that calls of the public methods produce and each
    of the four divisions [d], the report has an array under the key [d], and
    that array holds, in roster order, the results of [getPerformanceSummary]
    on the records that [getAttacheesByDivision d] returns, which are the
    records of the roster whose division is [d]; it is the empty array when
    there is no such record. *)
Theorem report_lists_by_division (calls : list TaskManager.Call) (d : string) :
  d ∈ Attachee.validDivisions →
  let tm := TaskManager.run calls TaskManager.new in
  ∃ r members summaries,
    TaskManager.generatePerformanceReport tm = (Normal r, tm) ∧
    TaskManager.getAttacheesByDivision d tm = (Normal members, tm) ∧
    members = filter (fun a => Attachee.division a = d) (TaskManager.attachees tm) ∧
    Report.divisions r !! d = Some summaries ∧
    Forall2 (fun a s => Attachee.getPerformanceSummary a = (Normal s, a))
      members summaries ∧
    (members = [] → summaries = []).
Proof.
  intros Hd tm.
  destruct (generatePerformanceReport_valid tm) as (r & Hr & Hdiv & _).
  { eapply Forall_impl; [apply run_record_ok|]. by intros a (Ha & _). }
  exists r, (filter (fun a => Attachee.division a = d) (TaskManager.attachees tm)).
  eexists. split; [exact Hr|]. split; [reflexivity|]. split; [reflexivity|].
  split; [exact (Hdiv d Hd)|]. split.
  - apply Forall2_fmap_r, Forall_Forall2_diag, Forall_forall.
    intros a _. apply getPerformanceSummary_summary_of.
  - by intros ->.
Qed.

Lemma report_lists_by_division_witness :
  let tm := TaskManager.run hub_calls TaskManager.new in
  ∃ r omar' martin',
    TaskManager.generatePerformanceReport tm = (Normal r, tm) ∧
    TaskManager.getAttacheesByDivision "Engineering" tm = (Normal [omar'; martin'], tm) ∧
    Report.divisions r !! "Engineering" = Some [summary_of omar'; summary_of martin'] ∧
    Report.divisions r !! "Hub Support" = Some [].
Proof.
  intros tm.
  destruct (report_lists_by_division hub_calls "Engineering")
    as (r & members & summaries & Hr & Hm & Hfilter & Hkey & Hall & _).
  { vm_compute. constructor. }
  destruct (report_lists_by_division hub_calls "Hub Support")
    as (r' & members' & summaries' & Hr' & _ & Hfilter' & Hkey' & _ & Hnone).
  { vm_compute. do 3 constructor 2. constructor. }
  fold tm in Hr, Hr', Hm, Hfilter, Hfilter'.
  rewrite Hr in Hr'. injection Hr' as <-.
  vm_compute in Hfilter. vm_compute in Hfilter'.
  rewrite (Hnone Hfilter') in Hkey'.
  rewrite Hfilter in Hm, Hall.
  inversion Hall as [|a1 s1 l1 k1 Hs1 Hall1]; subst.
  inversion Hall1 as [|a2 s2 l2 k2 Hs2 Hall2]; subst.
  inversion Hall2; subst.
  rewrite getPerformanceSummary_summary_of in Hs1, Hs2.
  injection Hs1 as <-. injection Hs2 as <-.
  do 3 eexists. split; [exact Hr|]. split; [exact Hm|]. split; [exact Hkey|exact Hkey'].
Defined.

(** C2, as stated, fails on the roster of one record whose feedback score is
    150: the record's score is 150, and the report's lowest score is 100. *)
Lemma overallStats_lowest_stays_100 :
  TaskManager.attachees roster_score_150 ≠ [] ∧
  rosterScores roster_score_150 = [150] ∧
  (∃ r, TaskManager.generatePerformanceReport roster_score_150
        = (Normal r, roster_score_150) ∧
     OverallStats.lowestScore (Report.overallStats r) = 100) ∧
  ¬ stats_describe_roster roster_score_150.
Proof.
  destruct (generatePerformanceReport_valid roster_score_150)
    as (r & Hr & _ & _ & _ & _ & Hlo).
  { eapply Forall_impl; [apply run_record_ok|]. by intros a (Ha & _). }
  change (OverallStats.lowestScore (Report.overallStats r) = 100) in Hlo.
  split; [discriminate|]. split; [reflexivity|]. split; [eauto|].
  intros (r' & Hr' & _ & _ & _ & Hin & _).
  rewrite Hr in Hr'. injection Hr' as <-.
  rewrite Hlo in Hin. change (100 ∈ [150]) in Hin.
  apply list_elem_of_singleton in Hin. discriminate.
Qed.

(** The running maximum has the same limit on the other side: on the roster
    of one record whose feedback score is -5 the record's score is -5 and the
    report's highest score is 0. *)
Lemma overallStats_highest_stays_0 :
  rosterScores roster_score_minus_5 = [-5] ∧
  ∃ r, TaskManager.generatePerformanceReport roster_score_minus_5
       = (Normal r, roster_score_minus_5) ∧
    OverallStats.highestScore (Report.overallStats r) = 0.
Proof.
  split; [reflexivity|].
  destruct (generatePerformanceReport_valid roster_score_minus_5)
    as (r & Hr & _ & _ & _ & Hhi & _).
  { eapply Forall_impl; [apply run_record_ok|]. by intros a (Ha & _). }
  exists r. split; [exact Hr|]. exact Hhi.
Qed.

(** C2, amended.  For every roster whose records each carry one of the four
    divisions (so for every roster that calls of the public methods produce),
    the report counts the records.  When the roster is not empty and its
    scores are in the range in which the program adds and divides exactly
    ([exact_range]), the average score is the mean of the records' scores
    rounded, a half going up.  The highest score is the maximum of the
    records' scores when some record has a score of at least 0, and the lowest
    score is their minimum when some record has a score of at most 100; when
    every score of a roster that is not empty is 100 the lowest score is 100.
    In particular the statistics are those of the claim for every roster that
    is not empty and whose scores all lie between 0 and 100, within the exact
    range. *)
Theorem overallStats_within_seeds (tm : TaskManager.t) :
  Forall (fun a => Attachee.division a ∈ Attachee.validDivisions)
    (TaskManager.attachees tm) →
  ∃ r, TaskManager.generatePerformanceReport tm = (Normal r, tm) ∧
    let s := Report.overallStats r in
    OverallStats.totalAttachees s = Z.of_nat (length (TaskManager.attachees tm)) ∧
    (TaskManager.attachees tm ≠ [] → exact_range (rosterScores tm) →
       rounds_half_up (mean (rosterScores tm)) (OverallStats.averageScore s)) ∧
    (Exists (fun x => 0 <= x) (rosterScores tm) →
       is_max (OverallStats.highestScore s) (rosterScores tm)) ∧
    (Exists (fun x => x <= 100) (rosterScores tm) →
       is_min (OverallStats.lowestScore s) (rosterScores tm)) ∧
    (TaskManager.attachees tm ≠ [] → Forall (fun x => x = 100) (rosterScores tm) →
       OverallStats.lowestScore s = 100) ∧
    (TaskManager.attachees tm ≠ [] →
     Forall (fun x => 0 <= x <= 100) (rosterScores tm) →
     exact_range (rosterScores tm) →
     stats_describe_roster tm).
Proof.
  intros Hvalid.
  destruct (generatePerformanceReport_valid tm Hvalid)
    as (r & Hr & _ & Hn & Havg & Hhi & Hlo).
  assert (TaskManager.attachees tm ≠ [] →
          rounds_half_up (mean (rosterScores tm))
            (OverallStats.averageScore (Report.overallStats r))) as Hmean.
  { intros Hne. rewrite decide_False in Havg by done.
    rewrite Havg. unfold mean. rewrite <- (length_fmap Attachee.performanceScore).
    apply Math_round_rounds. }
  assert (∀ P : Z → Prop, Exists P (rosterScores tm) → TaskManager.attachees tm ≠ [])
    as Hne_of.
  { intros P Hex Hnil. unfold rosterScores in Hex. rewrite Hnil in Hex. by inversion Hex. }
  assert (Exists (fun x => 0 <= x) (rosterScores tm) →
          is_max (OverallStats.highestScore (Report.overallStats r)) (rosterScores tm))
    as Hmax.
  { intros Hex. rewrite decide_False in Hhi by (by eapply Hne_of).
    rewrite Hhi. by apply running_max_is_max. }
  assert (Exists (fun x => x <= 100) (rosterScores tm) →
          is_min (OverallStats.lowestScore (Report.overallStats r)) (rosterScores tm))
    as Hmin.
  { intros Hex. rewrite decide_False in Hlo by (by eapply Hne_of).
    rewrite Hlo. by apply running_min_is_min. }
  assert (∀ P : Z → Prop, TaskManager.attachees tm ≠ [] →
            Forall P (rosterScores tm) → Exists P (rosterScores tm)) as Hsome.
  { intros P Hne Hall. unfold rosterScores in *.
    destruct (TaskManager.attachees tm) as [|a l]; [done|].
    apply Forall_cons in Hall as [Ha _]. by left. }
  exists r. split; [exact Hr|]. cbv zeta.
  split; [exact Hn|]. split; [by intros Hne _; apply Hmean|].
  split; [exact Hmax|]. split; [exact Hmin|]. split.
  - intros Hne Hall. destruct Hmin as [Hin _].
    { eapply Exists_impl; [by apply Hsome|]. cbn. lia. }
    rewrite Forall_forall in Hall. by apply Hall.
  - intros Hne Hall _. exists r. split; [exact Hr|]. cbv zeta.
    split; [exact Hn|]. split; [by apply Hmean|]. split.
    + apply Hmax. eapply Exists_impl; [by apply Hsome|]. cbn. lia.
    + apply Hmin. eapply Exists_impl; [by apply Hsome|]. cbn. lia.
Qed.

Lemma overallStats_within_seeds_witness :
  let tm := TaskManager.run hub_calls TaskManager.new in
  rosterScores tm = [95; 82; 98] ∧
  exact_range (rosterScores tm) ∧
  ∃ r, TaskManager.generatePerformanceReport tm = (Normal r, tm) ∧
    OverallStats.totalAttachees (Report.overallStats r) = 3 ∧
    rounds_half_up (mean [95; 82; 98]) (OverallStats.averageScore (Report.overallStats r)) ∧
    is_max (OverallStats.highestScore (Report.overallStats r)) [95; 82; 98] ∧
    is_min (OverallStats.lowestScore (Report.overallStats r)) [95; 82; 98] ∧
    stats_describe_roster tm.
Proof.
  intros tm. split; [reflexivity|]. split; [reflexivity|].
  destruct (overallStats_within_seeds tm)
    as (r & Hr & Hn & Havg & Hhi & Hlo & _ & Hall).
  - vm_compute. repeat constructor.
  - exists r. split; [exact Hr|]. split; [exact Hn|]. split; [|split; [|split]].
    + apply Havg; [discriminate|reflexivity].
    + apply Hhi. vm_compute. constructor. discriminate.
    + apply Hlo. vm_compute. constructor. discriminate.
    + apply Hall; [discriminate| |reflexivity].
      vm_compute. repeat constructor; discriminate.
Defined.

(** * Further properties of the two classes *)

(** ** One record *)

Section record_history.
Import Attachee.
Implicit Types (this : Attachee.t) (c : Attachee.Call) (calls : list Attachee.Call).

Lemma completeTask_Normal taskId completionDate this :
  fst (completeTask taskId completionDate this) = Normal tt.
Proof. unfold completeTask. by destruct (list_find _ _) as [[i task]|]. Qed.

Lemma addFeedback_Normal feedbackText score reviewer now this :
  fst (addFeedback feedbackText score reviewer now this) = Normal tt.
Proof. unfold addFeedback, calculatePerformanceScore. by case_match. Qed.

Lemma call_tasks_static c this :
  task_static <$> tasks this `prefix_of` task_static <$> tasks (call c this).
Proof.
  destruct c; cbn.
  - rewrite fmap_app. by apply prefix_app_r.
  - unfold completeTask.
    destruct (list_find _ _) as [[i task]|] eqn:Hfind; [|done]. cbn.
    apply list_find_Some in Hfind as (Hi & _ & _).
    rewrite list_fmap_insert, list_insert_id; [done|].
    by rewrite list_lookup_fmap, Hi.
  - unfold addFeedback, calculatePerformanceScore. by case_match.
  - unfold calculatePerformanceScore. by case_match.
  - done.
Qed.

Lemma call_feedback_prefix c this : feedback this `prefix_of` feedback (call c this).
Proof. rewrite call_feedback. destruct c; try done. by apply prefix_app_r. Qed.

Lemma call_completed_stays c this i t :
  tasks this !! i = Some t → Task.completed t = true →
  ∃ t', tasks (call c this) !! i = Some t' ∧ Task.completed t' = true.
Proof.
  intros Hi Hdone. destruct c; cbn.
  - exists t. by rewrite lookup_app_l by (by eapply lookup_lt_Some).
  - unfold completeTask.
    destruct (list_find _ _) as [[k task]|] eqn:Hfind; [|by exists t]. cbn.
    destruct (decide (k = i)) as [->|Hne].
    + eexists. split; [apply list_lookup_insert_eq; by eapply lookup_lt_Some|done].
    + exists t. by rewrite list_lookup_insert_ne.
  - exists t. unfold addFeedback, calculatePerformanceScore. by case_match.
  - exists t. unfold calculatePerformanceScore. by case_match.
  - by exists t.
Qed.

Lemma call_dates_match c this : dates_match this → dates_match (call c this).
Proof.
  unfold dates_match. intros Hinv. destruct c; cbn.
  - apply Forall_app. split; [done|]. constructor; [|done]. cbn.
    split; [done|]. by intros [? ?].
  - unfold completeTask.
    destruct (list_find _ _) as [[k task]|] eqn:Hfind; [|done]. cbn.
    apply Forall_insert; [done|]. cbn. split; eauto.
  - unfold addFeedback, calculatePerformanceScore. by case_match.
  - unfold calculatePerformanceScore. by case_match.
  - done.
Qed.

End record_history.

(** X1.  No call of a method of a record changes its name, its email or its
    division, and no call removes or edits what the record already holds: the
    feedback entries stay a prefix of the feedback list, the identifier,
    description, deadline and priority of the tasks stay a prefix of those of
    the task list, and a completed task stays completed. *)
Theorem record_only_grows (calls : list Attachee.Call) (this : Attachee.t) :
  let this' := Attachee.run calls this in
  identity this' = identity this ∧
  Attachee.feedback this `prefix_of` Attachee.feedback this' ∧
  task_static <$> Attachee.tasks this `prefix_of` task_static <$> Attachee.tasks this' ∧
  (∀ i t, Attachee.tasks this !! i = Some t → Task.completed t = true →
     ∃ t', Attachee.tasks this' !! i = Some t' ∧ Task.completed t' = true).
Proof.
  induction calls as [|c calls IH] using rev_ind; cbn zeta in *.
  - repeat split; try done. intros i t Hi Hd. by exists t.
  - rewrite run_snoc. destruct IH as (Hid & Hfb & Hts & Hdone).
    split; [|split; [|split]].
    + unfold identity in *.
      destruct (call_fixed_fields c (Attachee.run calls this)) as (-> & -> & ->).
      exact Hid.
    + etrans; [exact Hfb|]. apply call_feedback_prefix.
    + etrans; [exact Hts|]. apply call_tasks_static.
    + intros i t Hi Hd. destruct (Hdone i t Hi Hd) as (t1 & Hi1 & Hd1).
      by eapply call_completed_stays.
Qed.

(** X2.  In a record that the constructor built, and in every record of a
    roster, a task carries a completion date exactly when it is completed,
    whatever calls were made. *)
Theorem completionDate_iff_completed
    (name email division : string) (this0 : Attachee.t)
    (calls : list Attachee.Call) (hub : list TaskManager.Call) :
  Attachee.new name email division = Normal this0 →
  (∀ t, t ∈ Attachee.tasks (Attachee.run calls this0) →
     Task.completed t = true ↔ is_Some (Task.completionDate t)) ∧
  (∀ a t, a ∈ TaskManager.attachees (TaskManager.run hub TaskManager.new) →
     t ∈ Attachee.tasks a →
     Task.completed t = true ↔ is_Some (Task.completionDate t)).
Proof.
  intros Hnew. split.
  - assert (dates_match (Attachee.run calls this0)) as Hinv.
    { induction calls as [|c calls IH] using rev_ind.
      - apply new_Normal in Hnew as [_ ->]. constructor.
      - rewrite run_snoc. by apply call_dates_match. }
    unfold dates_match in Hinv. rewrite Forall_forall in Hinv. exact Hinv.
  - intros a t Ha Ht.
    assert (Forall dates_match (TaskManager.attachees (TaskManager.run hub TaskManager.new)))
      as Hall.
    { apply run_Forall; [|exact call_dates_match].
      intros n e d b [_ ->]%new_Normal. constructor. }
    rewrite Forall_forall in Hall. specialize (Hall a Ha).
    unfold dates_match in Hall. rewrite Forall_forall in Hall. by apply Hall.
Qed.

Lemma completionDate_iff_completed_witness :
  Attachee.new "Omar Haitham" "omarhaitham@example.com" "Engineering" = Normal omar ∧
  (∀ t, t ∈ Attachee.tasks (Attachee.run omar_calls omar) →
     Task.completed t = true ↔ is_Some (Task.completionDate t)) ∧
  (∀ a t, a ∈ TaskManager.attachees (TaskManager.run example_usage TaskManager.new) →
     t ∈ Attachee.tasks a →
     Task.completed t = true ↔ is_Some (Task.completionDate t)).
Proof.
  split; [reflexivity|].
  apply (completionDate_iff_completed "Omar Haitham" "omarhaitham@example.com"
           "Engineering" omar omar_calls example_usage).
  reflexivity.
Defined.

Lemma completed_count_bounds (ts : list Task.t) :
  0 <= completed_count ts <= Z.of_nat (length ts).
Proof.
  induction ts as [|t ts IH]; cbn [completed_count length]; [lia|].
  destruct (Task.completed t); lia.
Qed.

Lemma completed_count_app (ts1 ts2 : list Task.t) :
  completed_count (ts1 ++ ts2) = completed_count ts1 + completed_count ts2.
Proof. induction ts1 as [|t ts1 IH]; cbn [app completed_count]; lia. Qed.

Lemma completed_count_insert (ts : list Task.t) (i : nat) (t t' : Task.t) :
  ts !! i = Some t →
  completed_count (<[i := t']> ts)
  = completed_count ts - (if Task.completed t then 1 else 0)
    + (if Task.completed t' then 1 else 0).
Proof.
  revert i. induction ts as [|u ts IH]; intros i Hi; [done|].
  destruct i as [|i].
  - injection Hi as ->. cbn. lia.
  - change (<[S i := t']> (u :: ts)) with (u :: <[i := t']> ts).
    cbn [completed_count]. rewrite (IH i Hi). lia.
Qed.

(** X3.  In a record that the constructor built and that holds [n] tasks,
    [completeTask] with an identifier between [1] and [n] completes the task
    at position [taskId - 1], which carries that identifier, sets its
    completion date, and changes nothing else; with any other identifier it
    changes nothing. *)
Theorem completeTask_by_position
    (name email division : string) (this0 : Attachee.t) (calls : list Attachee.Call)
    (taskId : Z) (completionDate : string) :
  Attachee.new name email division = Normal this0 →
  let this := Attachee.run calls this0 in
  let n := Z.of_nat (length (Attachee.tasks this)) in
  (1 <= taskId <= n →
     ∃ task this',
       Attachee.tasks this !! Z.to_nat (taskId - 1) = Some task ∧
       Task.id task = taskId ∧
       Attachee.completeTask taskId completionDate this = (Normal tt, this') ∧
       Attachee.tasks this'
       = <[Z.to_nat (taskId - 1) :=
             Task.mk taskId (Task.description task) (Task.deadline task)
               (Task.priority task) true (Some completionDate)]> (Attachee.tasks this) ∧
       identity this' = identity this ∧
       Attachee.feedback this' = Attachee.feedback this ∧
       Attachee.performanceScore this' = Attachee.performanceScore this) ∧
  (¬ (1 <= taskId <= n) →
     Attachee.completeTask taskId completionDate this = (Normal tt, this)).
Proof.
  intros Hnew this n.
  assert (dense_ids this) as Hids.
  { apply run_dense_ids. by apply new_Normal in Hnew as [_ ->]. }
  split.
  - intros Hrange.
    destruct (lookup_lt_is_Some_2 (Attachee.tasks this) (Z.to_nat (taskId - 1)))
      as [task Hi]; [subst n; lia|].
    destruct (dense_ids_first this _ task Hids Hi) as [Hid Hfirst].
    assert (Task.id task = taskId) as Hid' by lia.
    assert (list_find (fun t => Task.id t = taskId) (Attachee.tasks this)
            = Some (Z.to_nat (taskId - 1), task)) as Hfind.
    { apply list_find_Some. split; [done|]. split; [done|].
      intros j t Hj Hlt. rewrite <- Hid'. by eapply Hfirst. }
    unfold Attachee.completeTask. rewrite Hfind, Hid'.
    exists task. eexists. by repeat split.
  - intros Hout. unfold Attachee.completeTask.
    destruct (list_find _ _) as [[i task]|] eqn:Hfind; [|done].
    apply list_find_Some in Hfind as (Hi & Hid & _).
    destruct (dense_ids_first this _ task Hids Hi) as [Hid' _].
    apply lookup_lt_Some in Hi. subst n. lia.
Qed.

Lemma completeTask_by_position_witness :
  let this := Attachee.run omar_calls omar in
  (∃ task this',
     Attachee.tasks this !! 0%nat = Some task ∧ Task.id task = 1 ∧
     Attachee.completeTask 1 "2023-06-21" this = (Normal tt, this') ∧
     Attachee.tasks this'
     = <[0%nat := Task.mk 1 (Task.description task) (Task.deadline task)
                    (Task.priority task) true (Some "2023-06-21")]> (Attachee.tasks this)) ∧
  Attachee.completeTask 3 "2023-06-21" this = (Normal tt, this) ∧
  Attachee.completeTask 0 "2023-06-21" this = (Normal tt, this).
Proof.
  intros this.
  destruct (completeTask_by_position "Omar Haitham" "omarhaitham@example.com"
              "Engineering" omar omar_calls 1 "2023-06-21" eq_refl) as [Hin _].
  destruct (completeTask_by_position "Omar Haitham" "omarhaitham@example.com"
              "Engineering" omar omar_calls 3 "2023-06-21" eq_refl) as [_ Hout3].
  destruct (completeTask_by_position "Omar Haitham" "omarhaitham@example.com"
              "Engineering" omar omar_calls 0 "2023-06-21" eq_refl) as [_ Hout0].
  split; [|split].
  - destruct Hin as (task & this' & H1 & H2 & H3 & H4 & _); [vm_compute; split; discriminate|].
    exists task, this'. auto.
  - apply Hout3. vm_compute. intros [_ H]. by apply H.
  - apply Hout0. vm_compute. intros [H _]. by apply H.
Defined.

(** X4.  In every summary the number of completed tasks lies between 0 and
    the number of assigned tasks, so the number of pending tasks is not
    negative.  [assignTask] raises the assigned and the pending count by one;
    [completeTask] on a task that is not completed yet raises the completed
    count by one and lowers the pending count by one, and on a completed task
    or with an unknown identifier it leaves the summary's counts as they were;
    [addFeedback] raises the feedback count by one and leaves the task
    counts. *)
Theorem summary_counts (this : Attachee.t) :
  ∃ s, Attachee.getPerformanceSummary this = (Normal s, this) ∧
    0 <= Summary.tasksCompleted s <= Summary.tasksAssigned s ∧
    0 <= Summary.tasksPending s ∧
    (∀ taskDescription deadline priority,
       ∃ s', Attachee.getPerformanceSummary
               (snd (Attachee.assignTask taskDescription deadline priority this))
             = (Normal s', snd (Attachee.assignTask taskDescription deadline priority this)) ∧
         Summary.tasksAssigned s' = Summary.tasksAssigned s + 1 ∧
         Summary.tasksCompleted s' = Summary.tasksCompleted s ∧
         Summary.tasksPending s' = Summary.tasksPending s + 1 ∧
         Summary.feedbackCount s' = Summary.feedbackCount s) ∧
    (∀ taskId completionDate,
       ∃ s', Attachee.getPerformanceSummary
               (snd (Attachee.completeTask taskId completionDate this))
             = (Normal s', snd (Attachee.completeTask taskId completionDate this)) ∧
         Summary.tasksAssigned s' = Summary.tasksAssigned s ∧
         Summary.feedbackCount s' = Summary.feedbackCount s ∧
         Summary.tasksCompleted s' + Summary.tasksPending s' = Summary.tasksAssigned s ∧
         Summary.tasksCompleted s'
         = Summary.tasksCompleted s
           + match list_find (fun t => Task.id t = taskId) (Attachee.tasks this) with
             | Some (_, task) => if Task.completed task then 0 else 1
             | None => 0
             end) ∧
    (∀ feedbackText score reviewer now,
       ∃ s', Attachee.getPerformanceSummary
               (snd (Attachee.addFeedback feedbackText score reviewer now this))
             = (Normal s', snd (Attachee.addFeedback feedbackText score reviewer now this)) ∧
         Summary.feedbackCount s' = Summary.feedbackCount s + 1 ∧
         Summary.tasksAssigned s' = Summary.tasksAssigned s ∧
         Summary.tasksCompleted s' = Summary.tasksCompleted s ∧
         Summary.tasksPending s' = Summary.tasksPending s).
Proof.
  exists (summary_of this). split; [apply getPerformanceSummary_summary_of|].
  pose proof (completed_count_bounds (Attachee.tasks this)) as Hb.
  cbn [summary_of Summary.tasksCompleted Summary.tasksAssigned Summary.tasksPending
       Summary.feedbackCount].
  split; [lia|]. split; [lia|]. split; [|split].
  - intros. eexists. split; [apply getPerformanceSummary_summary_of|].
    cbn. rewrite length_app, completed_count_app. cbn. lia.
  - intros taskId completionDate. eexists.
    split; [apply getPerformanceSummary_summary_of|].
    unfold Attachee.completeTask.
    destruct (list_find _ _) as [[i task]|] eqn:Hfind; cbn.
    + apply list_find_Some in Hfind as (Hi & _ & _).
      rewrite length_insert, (completed_count_insert _ _ task) by done. cbn.
      destruct (Task.completed task); lia.
    + lia.
  - intros feedbackText score reviewer now. eexists.
    split; [apply getPerformanceSummary_summary_of|].
    pose proof (call_feedback (Attachee.AddFeedback feedbackText score reviewer now) this)
      as Hfb.
    pose proof (call_tasks_length (Attachee.AddFeedback feedbackText score reviewer now) this)
      as Hlen.
    assert (Attachee.tasks (snd (Attachee.addFeedback feedbackText score reviewer now this))
            = Attachee.tasks this) as Hts.
    { unfold Attachee.addFeedback, Attachee.calculatePerformanceScore.
      destruct (_ =? 0); reflexivity. }
    cbn [Attachee.call] in Hfb, Hlen. cbn. rewrite Hfb, Hts, length_app. cbn. lia.
Qed.

Section bounds.
Implicit Types (l : list Z) (lo hi : Z).

Lemma Zsum_between lo hi l :
  Forall (fun x => lo <= x <= hi) l →
  lo * Z.of_nat (length l) <= Zsum l <= hi * Z.of_nat (length l).
Proof.
  induction 1 as [|x l Hx _ IH]; unfold Zsum in *; cbn [foldr length]; [lia|].
  rewrite Nat2Z.inj_succ, !Z.mul_succ_r. lia.
Qed.

Lemma mean_between lo hi l :
  l ≠ [] → Forall (fun x => lo <= x <= hi) l →
  (inject_Z lo <= mean l)%Q ∧ (mean l <= inject_Z hi)%Q.
Proof.
  intros Hne Hall. pose proof (Zsum_between lo hi l Hall) as [Hlo Hhi].
  assert (0 < Z.of_nat (length l)) as Hn by (destruct l; [done|cbn [length]; lia]).
  assert (0 < inject_Z (Z.of_nat (length l)))%Q as Hq
    by (change 0%Q with (inject_Z 0); by rewrite <- Zlt_Qlt).
  unfold mean. split.
  - apply Qle_shift_div_l; [exact Hq|]. by rewrite <- inject_Z_mult, <- Zle_Qle.
  - apply Qle_shift_div_r; [exact Hq|]. by rewrite <- inject_Z_mult, <- Zle_Qle.
Qed.

Lemma rounds_half_up_between lo hi (x : Q) (r : Z) :
  (inject_Z lo <= x)%Q → (x <= inject_Z hi)%Q → rounds_half_up x r → lo <= r <= hi.
Proof.
  intros Hlo Hhi [Hr1 Hr2].
  assert (inject_Z lo < inject_Z r + inject_Z 1)%Q as Ha
    by (change (inject_Z 1) with 1%Q; lra).
  assert (inject_Z r < inject_Z hi + inject_Z 1)%Q as Hb
    by (change (inject_Z 1) with 1%Q; lra).
  rewrite <- inject_Z_plus, <- Zlt_Qlt in Ha, Hb. lia.
Qed.

Lemma rounded_mean_between lo hi l (r : Z) :
  l ≠ [] → Forall (fun x => lo <= x <= hi) l → rounds_half_up (mean l) r →
  lo <= r <= hi.
Proof.
  intros Hne Hall Hr. destruct (mean_between lo hi l Hne Hall) as [H1 H2].
  by eapply rounds_half_up_between.
Qed.

End bounds.

(** X5.  The score of a record that the constructor built and that holds
    feedback, with feedback scores in the range in which the program adds and
    divides exactly ([exact_range]), lies between the smallest and the largest
    of its feedback scores: whenever all feedback scores lie between two
    integers, so does the score.  With scores from 0 to 100 the score is from
    0 to 100, and when all feedback scores are equal the score is that
    value. *)
Theorem performanceScore_between
    (name email division : string) (this0 : Attachee.t) (calls : list Attachee.Call)
    (lo hi : Z) :
  Attachee.new name email division = Normal this0 →
  let this := Attachee.run calls this0 in
  Attachee.feedback this ≠ [] →
  exact_range (feedbackScores this) →
  Forall (fun x => lo <= x <= hi) (feedbackScores this) →
  lo <= Attachee.performanceScore this <= hi.
Proof.
  intros Hnew this Hne _ Hall.
  assert (score_matches_feedback this) as Hinv.
  { apply run_score_matches. apply new_Normal in Hnew as [_ ->]. reflexivity. }
  unfold score_matches_feedback in Hinv. unfold feedbackScores in *.
  destruct (Attachee.feedback this) as [|e fb] eqn:E; [done|].
  eapply rounded_mean_between; [|exact Hall|exact Hinv]. done.
Qed.

Lemma performanceScore_between_witness :
  exact_range (feedbackScores (Attachee.run omar_calls omar)) ∧
  82 <= Attachee.performanceScore (Attachee.run omar_calls omar) <= 95.
Proof.
  split; [reflexivity|].
  apply (performanceScore_between "Omar Haitham" "omarhaitham@example.com"
           "Engineering" omar omar_calls 82 95).
  - reflexivity.
  - discriminate.
  - reflexivity.
  - vm_compute. repeat constructor; discriminate.
Defined.

(** ** The roster *)

Section roster.
Import TaskManager.
Implicit Types (tm : TaskManager.t) (l : list Attachee.t) (a : Attachee.t).

Lemma filter_all {A} (P : A → Prop) `{!∀ x, Decision (P x)} (xs : list A) :
  Forall P xs → filter P xs = xs.
Proof.
  induction 1 as [|x xs Hx _ IH]; [done|]. by rewrite filter_cons, decide_True, IH.
Qed.

Lemma filter_split_length {A} (P : A → Prop) `{!∀ x, Decision (P x)} (xs : list A) :
  length xs = (length (filter (fun x => ¬ P x) xs) + length (filter P xs))%nat.
Proof.
  induction xs as [|x xs IH]; [done|].
  rewrite !filter_cons. destruct (decide (P x)).
  - rewrite decide_False by tauto. cbn [length]. lia.
  - rewrite decide_True by done. cbn [length]. lia.
Qed.

Lemma first_feedback_score feedbackText (score : Z) reviewer now a :
  Attachee.feedback a = [] →
  ∃ a', Attachee.addFeedback feedbackText score reviewer now a = (Normal tt, a') ∧
    Attachee.performanceScore a' = score ∧
    Attachee.feedback a' = [Feedback.mk feedbackText score reviewer now] ∧
    Attachee.tasks a' = Attachee.tasks a ∧ identity a' = identity a.
Proof.
  intros Hfb. unfold Attachee.addFeedback. rewrite Hfb.
  set (this' := Attachee.set_feedback _ a).
  destruct (calculatePerformanceScore_nonempty this') as (r & -> & Hr); [done|].
  eexists. split; [reflexivity|]. split; [|done]. cbn.
  assert (score <= r <= score) as Hb; [|lia].
  apply (rounded_mean_between score score (feedbackScores this') r); [done| |exact Hr].
  apply Forall_singleton. cbn. lia.
Qed.

End roster.

(** X6.  [removeAttachee] never fails.  Afterwards no record of the roster
    carries the email, the records with another email are all still there in
    their order, and the roster is shorter by the number of records that
    carried the email; with an email that no record carries the roster is
    unchanged.  A second removal and the two calls that look a record up by
    that email then change nothing. *)
Theorem removeAttachee_effect
    (email taskDescription deadline feedbackText reviewer now : string)
    (priority score : Z) (tm : TaskManager.t) :
  ∃ tm', TaskManager.removeAttachee email tm = (Normal tt, tm') ∧
    Forall (fun a => Attachee.email a ≠ email) (TaskManager.attachees tm') ∧
    TaskManager.attachees tm' `sublist_of` TaskManager.attachees tm ∧
    (∀ a, a ∈ TaskManager.attachees tm' ↔
          a ∈ TaskManager.attachees tm ∧ Attachee.email a ≠ email) ∧
    length (TaskManager.attachees tm)
    = (length (TaskManager.attachees tm')
       + length (filter (fun a => Attachee.email a = email) (TaskManager.attachees tm)))%nat ∧
    (Forall (fun a => Attachee.email a ≠ email) (TaskManager.attachees tm) → tm' = tm) ∧
    TaskManager.removeAttachee email tm' = (Normal tt, tm') ∧
    TaskManager.assignTaskToAttachee email taskDescription deadline priority tm'
    = (Normal tt, tm') ∧
    TaskManager.addFeedbackToAttachee email feedbackText score reviewer now tm'
    = (Normal tt, tm').
Proof.
  destruct tm as [l]. eexists. split; [reflexivity|]. cbn [TaskManager.attachees].
  assert (Forall (fun a => Attachee.email a ≠ email)
            (filter (fun a => Attachee.email a ≠ email) l)) as Hnone.
  { apply Forall_forall. by intros a [Ha _]%list_elem_of_filter. }
  split; [exact Hnone|]. split; [apply sublist_filter|].
  split; [intros a; rewrite list_elem_of_filter; tauto|].
  split; [apply (filter_split_length (fun a => Attachee.email a = email))|].
  split; [intros Hall; by rewrite filter_all|].
  split; [unfold TaskManager.removeAttachee; cbn; by rewrite filter_all|].
  unfold TaskManager.assignTaskToAttachee, TaskManager.addFeedbackToAttachee.
  cbn [TaskManager.attachees].
  assert (list_find (fun a => Attachee.email a = email)
            (filter (fun a => Attachee.email a ≠ email) l) = None) as ->; [|done].
  apply list_find_None. eapply Forall_impl; [exact Hnone|]. naive_solver.
Qed.

(** X7.  When the division is valid and no record of the roster carries the
    email, [addAttachee] followed by [removeAttachee] with that email gives the
    roster back as it was.  Before the removal the two lookups by that email
    reach the new record: [assignTaskToAttachee] gives it a task with
    identifier 1, and [addFeedbackToAttachee] gives it its first feedback,
    whose score becomes the record's score; the older records stay as they
    were. *)
Theorem addAttachee_then_lookup
    (name email division taskDescription deadline feedbackText reviewer now : string)
    (priority score : Z) (tm : TaskManager.t) :
  division ∈ Attachee.validDivisions →
  Forall (fun a => Attachee.email a ≠ email) (TaskManager.attachees tm) →
  ∃ a tm1, TaskManager.addAttachee name email division tm = (Normal a, tm1) ∧
    TaskManager.removeAttachee email tm1 = (Normal tt, tm) ∧
    (∃ a', TaskManager.assignTaskToAttachee email taskDescription deadline priority tm1
           = (Normal tt, {| TaskManager.attachees := TaskManager.attachees tm ++ [a'] |}) ∧
       Attachee.tasks a'
       = [Task.mk 1 taskDescription deadline priority false None] ∧
       identity a' = identity a) ∧
    (∃ a', TaskManager.addFeedbackToAttachee email feedbackText score reviewer now tm1
           = (Normal tt, {| TaskManager.attachees := TaskManager.attachees tm ++ [a'] |}) ∧
       Attachee.performanceScore a' = score ∧
       Attachee.feedback a' = [Feedback.mk feedbackText score reviewer now] ∧
       identity a' = identity a).
Proof.
  intros Hd Hfresh. destruct tm as [l]. cbn [TaskManager.attachees] in *.
  unfold TaskManager.addAttachee, Attachee.new, Attachee.validateDivision.
  rewrite decide_True by done. cbn [TaskManager.attachees].
  set (a := Attachee.mk name email division [] [] 0).
  exists a. eexists. split; [reflexivity|].
  assert (list_find (fun x => Attachee.email x = email) (l ++ [a]) = Some (length l, a))
    as Hfind.
  { apply list_find_first; [|done]. eapply Forall_impl; [exact Hfresh|]. naive_solver. }
  split; [|split].
  - unfold TaskManager.removeAttachee. cbn [TaskManager.attachees].
    rewrite filter_app, filter_all by done.
    rewrite filter_cons, decide_False by naive_solver. by rewrite filter_nil, app_nil_r.
  - unfold TaskManager.assignTaskToAttachee. cbn [TaskManager.attachees].
    rewrite Hfind. eexists. split; [cbn; by rewrite insert_first|done].
  - destruct (first_feedback_score feedbackText score reviewer now a eq_refl)
      as (a' & Heq & Hs & Hfb & _ & Hid).
    exists a'. unfold TaskManager.addFeedbackToAttachee. cbn [TaskManager.attachees].
    rewrite Hfind, Heq. by rewrite insert_first.
Qed.

Lemma addAttachee_then_lookup_witness :
  let tm := TaskManager.run example_usage TaskManager.new in
  ∃ a tm1,
    TaskManager.addAttachee "Ann Lee" "ann@example.com" "Hub Support" tm = (Normal a, tm1) ∧
    TaskManager.removeAttachee "ann@example.com" tm1 = (Normal tt, tm) ∧
    (∃ a', TaskManager.addFeedbackToAttachee "ann@example.com" "Good start" 77
             "Supervisor D" "2023-07-01T00:00:00.000Z" tm1
           = (Normal tt, {| TaskManager.attachees := TaskManager.attachees tm ++ [a'] |}) ∧
       Attachee.performanceScore a' = 77).
Proof.
  intros tm.
  destruct (addAttachee_then_lookup "Ann Lee" "ann@example.com" "Hub Support"
              "Write tests" "2023-07-10" "Good start" "Supervisor D"
              "2023-07-01T00:00:00.000Z" 2 77 tm)
    as (a & tm1 & Hadd & Hrem & _ & (a' & Hfb & Hs & _)).
  - vm_compute. do 3 constructor 2. constructor.
  - vm_compute. repeat constructor; discriminate.
  - exists a, tm1. split; [exact Hadd|]. split; [exact Hrem|]. exists a'. by split.
Defined.

Section divisions.
Import TaskManager.
Implicit Types (tm : TaskManager.t) (l : list Attachee.t) (a : Attachee.t).

Lemma valid_division_cases (d : string) :
  d ∈ Attachee.validDivisions ↔
  d = "Engineering" ∨ d = "Tech Programs" ∨ d = "Radio Support" ∨ d = "Hub Support".
Proof. unfold Attachee.validDivisions. rewrite !elem_of_cons, elem_of_nil. tauto. Qed.

Lemma by_division_lengths l :
  Forall (fun a => Attachee.division a ∈ Attachee.validDivisions) l →
  (length (filter (fun a => Attachee.division a = "Engineering") l)
   + length (filter (fun a => Attachee.division a = "Tech Programs") l)
   + length (filter (fun a => Attachee.division a = "Radio Support") l)
   + length (filter (fun a => Attachee.division a = "Hub Support") l))%nat
  = length l.
Proof.
  induction 1 as [|a l Ha _ IH]; [done|].
  rewrite !filter_cons.
  apply valid_division_cases in Ha as [Ha|[Ha|[Ha|Ha]]]; rewrite Ha;
    repeat first [rewrite decide_True by reflexivity
                 |rewrite decide_False by discriminate];
    cbn [length]; lia.
Qed.

Lemma initial_keys_None (d : string) :
  d ∉ Attachee.validDivisions →
  ({[ "Engineering" := []; "Tech Programs" := [];
      "Radio Support" := []; "Hub Support" := [] ]} : gmap string (list Summary.t)) !! d
  = None.
Proof.
  rewrite valid_division_cases. intros Hd.
  rewrite !lookup_insert_ne by (intros <-; tauto).
  apply lookup_singleton_ne. intros <-. tauto.
Qed.

Lemma forEach_report_keys (d : string) l :
  ∀ report (total count : Z) c l',
    (is_Some (Report.divisions report !! d) ↔ d ∈ Attachee.validDivisions) →
    forEach report_callback (report, total, count) l = (c, l') →
    ∀ r' (t' n' : Z), c = Normal (r', t', n') →
      is_Some (Report.divisions r' !! d) ↔ d ∈ Attachee.validDivisions.
Proof.
  induction l as [|a l IH]; intros report total count c l' Hinit Hrun r' t' n' Hc.
  - cbn in Hrun. injection Hrun as <- <-. by injection Hc as <- <- <-.
  - cbn [forEach] in Hrun.
    destruct (Report.divisions report !! Attachee.division a) as [array|] eqn:E.
    + rewrite (report_callback_found _ _ _ _ _ E) in Hrun.
      match type of Hrun with context [forEach _ (?r1, ?t1, ?n1) l] =>
        destruct (forEach report_callback (r1, t1, n1) l) as [c1 l1] eqn:Hrest;
        eapply (IH r1 t1 n1); [|exact Hrest|]
      end.
      * cbn [Report.divisions]. rewrite <- Hinit.
        destruct (decide (Attachee.division a = d)) as [<-|Hne].
        -- rewrite lookup_insert_eq, E. split; eauto.
        -- by rewrite lookup_insert_ne.
      * cbv beta iota in Hrun. injection Hrun as <- <-. exact Hc.
    + destruct (report_callback_missing _ total count _ E) as [e He].
      rewrite He in Hrun. cbv beta iota in Hrun.
      injection Hrun as <- <-. discriminate Hc.
Qed.

(** The keys under which the report holds arrays, for any roster on which the
    report does not fail. *)
Lemma generatePerformanceReport_keys tm (r : Report.t) (d : string) :
  fst (generatePerformanceReport tm) = Normal r →
  is_Some (Report.divisions r !! d) ↔ d ∈ Attachee.validDivisions.
Proof.
  destruct tm as [l]. unfold generatePerformanceReport. cbv zeta. cbn [attachees].
  match goal with |- context [forEach report_callback ?acc l] =>
    destruct (forEach report_callback acc l) as [[[[r' t'] n']|e] l'] eqn:Hrun
  end; cbn [fst]; [|by intros [=]].
  assert (is_Some (Report.divisions r' !! d) ↔ d ∈ Attachee.validDivisions) as Hr'.
  { eapply forEach_report_keys; [|exact Hrun|reflexivity].
    cbn [Report.divisions]. split.
    - intros Hsome. destruct (decide (d ∈ Attachee.validDivisions)) as [|Hd]; [done|].
      rewrite (initial_keys_None _ Hd) in Hsome. by destruct Hsome.
    - intros Hd. rewrite (initial_keys _ Hd). eauto. }
  intros [= <-]. by destruct (n' >? 0).
Qed.

End divisions.

Lemma run_valid_divisions (calls : list TaskManager.Call) :
  Forall (fun a => Attachee.division a ∈ Attachee.validDivisions)
    (TaskManager.attachees (TaskManager.run calls TaskManager.new)).
Proof. eapply Forall_impl; [apply run_record_ok|]. by intros a (Ha & _). Qed.

(** X8.  For every roster that calls of the public methods produce, the four
    divisions split the roster: the numbers of records that
    [getAttacheesByDivision] returns for them add up to the size of the roster,
    every record is among those returned for its own division, and for any
    other division name the method returns the empty array.  What it returns
    is a sub-sequence of the roster in which every record has the division
    asked for, and the roster is unchanged. *)
Theorem divisions_partition_roster (calls : list TaskManager.Call) (d : string) :
  let tm := TaskManager.run calls TaskManager.new in
  (∃ e t r h,
     TaskManager.getAttacheesByDivision "Engineering" tm = (Normal e, tm) ∧
     TaskManager.getAttacheesByDivision "Tech Programs" tm = (Normal t, tm) ∧
     TaskManager.getAttacheesByDivision "Radio Support" tm = (Normal r, tm) ∧
     TaskManager.getAttacheesByDivision "Hub Support" tm = (Normal h, tm) ∧
     (length e + length t + length r + length h)%nat
     = length (TaskManager.attachees tm)) ∧
  (d ∉ Attachee.validDivisions →
     TaskManager.getAttacheesByDivision d tm = (Normal [], tm)) ∧
  (∀ a, a ∈ TaskManager.attachees tm →
     ∃ members, TaskManager.getAttacheesByDivision (Attachee.division a) tm
                = (Normal members, tm) ∧ a ∈ members) ∧
  (∃ members, TaskManager.getAttacheesByDivision d tm = (Normal members, tm) ∧
     members `sublist_of` TaskManager.attachees tm ∧
     Forall (fun a => Attachee.division a = d) members).
Proof.
  intros tm. pose proof (run_valid_divisions calls) as Hvalid. fold tm in Hvalid.
  unfold TaskManager.getAttacheesByDivision. split; [|split; [|split]].
  - do 4 eexists. do 4 (split; [reflexivity|]). by apply by_division_lengths.
  - intros Hd. do 2 f_equal.
    induction Hvalid as [|a l Ha _ IH]; [done|].
    rewrite filter_cons, decide_False; [exact IH|]. by intros <-.
  - intros a Ha. eexists. split; [reflexivity|]. by apply list_elem_of_filter.
  - eexists. split; [reflexivity|]. split; [apply sublist_filter|].
    apply Forall_forall. by intros a [Ha _]%list_elem_of_filter.
Qed.

(** X9.  For every roster that calls of the public methods produce, the report
    holds arrays under the four division names and under no other key, the
    lengths of the four arrays add up to [totalAttachees], which is the size of
    the roster, and every summary in the array of a division carries that
    division. *)
Theorem report_lists_cover_roster (calls : list TaskManager.Call) :
  let tm := TaskManager.run calls TaskManager.new in
  ∃ r e t rs h,
    TaskManager.generatePerformanceReport tm = (Normal r, tm) ∧
    Report.divisions r !! "Engineering" = Some e ∧
    Report.divisions r !! "Tech Programs" = Some t ∧
    Report.divisions r !! "Radio Support" = Some rs ∧
    Report.divisions r !! "Hub Support" = Some h ∧
    Z.of_nat (length e + length t + length rs + length h)
    = OverallStats.totalAttachees (Report.overallStats r) ∧
    OverallStats.totalAttachees (Report.overallStats r)
    = Z.of_nat (length (TaskManager.attachees tm)) ∧
    (∀ d, is_Some (Report.divisions r !! d) ↔ d ∈ Attachee.validDivisions) ∧
    (∀ d l s, Report.divisions r !! d = Some l → s ∈ l → Summary.division s = d).
Proof.
  intros tm. pose proof (run_valid_divisions calls) as Hvalid. fold tm in Hvalid.
  destruct (generatePerformanceReport_valid tm Hvalid) as (r & Hr & Hdiv & Hn & _).
  assert (∀ d, is_Some (Report.divisions r !! d) ↔ d ∈ Attachee.validDivisions) as Hkeys.
  { intros d. apply (generatePerformanceReport_keys tm). by rewrite Hr. }
  exists r. do 4 eexists. split; [exact Hr|].
  do 4 (split; [apply Hdiv, valid_division_cases; tauto|]).
  split; [|split; [exact Hn|split; [exact Hkeys|]]].
  - rewrite Hn, !length_fmap. f_equal. by apply by_division_lengths.
  - intros d l s Hl Hs.
    assert (d ∈ Attachee.validDivisions) as Hd by (apply Hkeys; eauto).
    rewrite (Hdiv d Hd) in Hl. injection Hl as <-.
    apply list_elem_of_fmap in Hs as (a & -> & Ha).
    by apply list_elem_of_filter in Ha as [Ha _].
Qed.

(** X10.  For every roster whose records each carry one of the four
    divisions (so for every roster that calls of the public methods produce),
    the report's lowest score is at most its highest score, the highest score
    is never negative and the lowest never above 100, and every record's score
    lies between the lowest and the highest score.  When the scores are in
    the range in which the program adds and divides exactly ([exact_range]),
    the average score lies between the lowest and the highest score. *)
Theorem overallStats_ordered (tm : TaskManager.t) :
  Forall (fun a => Attachee.division a ∈ Attachee.validDivisions)
    (TaskManager.attachees tm) →
  ∃ r, TaskManager.generatePerformanceReport tm = (Normal r, tm) ∧
    let s := Report.overallStats r in
    (exact_range (rosterScores tm) →
       OverallStats.lowestScore s <= OverallStats.averageScore s
         <= OverallStats.highestScore s) ∧
    OverallStats.lowestScore s <= OverallStats.highestScore s ∧
    0 <= OverallStats.highestScore s ∧
    OverallStats.lowestScore s <= 100 ∧
    Forall (fun x => OverallStats.lowestScore s <= x <= OverallStats.highestScore s)
      (rosterScores tm).
Proof.
  intros Hvalid.
  destruct (generatePerformanceReport_valid tm Hvalid)
    as (r & Hr & _ & _ & Havg & Hhi & Hlo).
  exists r. split; [exact Hr|]. cbv zeta.
  destruct (decide (TaskManager.attachees tm = [])) as [Hnil|Hne].
  - rewrite Havg, Hhi, Hlo. unfold rosterScores. rewrite Hnil.
    repeat split; try lia. constructor.
  - assert (Forall (fun x => OverallStats.lowestScore (Report.overallStats r) <= x
                             <= OverallStats.highestScore (Report.overallStats r))
              (rosterScores tm)) as Hall.
    { rewrite Hhi, Hlo.
      pose proof (running_min_bound 100 (rosterScores tm)) as Hmin.
      pose proof (running_max_bound 0 (rosterScores tm)) as Hmax.
      rewrite Forall_forall in Hmin, Hmax. apply Forall_forall. intros x Hx.
      split; [by apply Hmin|by apply Hmax]. }
    assert (rosterScores tm ≠ []) as Hscores
      by (unfold rosterScores; by destruct (TaskManager.attachees tm)).
    split; [|split; [|split; [|split; [|exact Hall]]]].
    + intros _. apply (rounded_mean_between _ _ (rosterScores tm)); [done|exact Hall|].
      rewrite Havg. unfold mean. rewrite <- (length_fmap Attachee.performanceScore).
      apply Math_round_rounds.
    + destruct (rosterScores tm) as [|x l]; [done|].
      apply Forall_cons in Hall as [Hx _]. lia.
    + rewrite Hhi. apply running_max_ge.
    + rewrite Hlo. apply running_min_le.
Qed.

Lemma overallStats_ordered_witness :
  let tm := TaskManager.run example_usage TaskManager.new in
  exact_range (rosterScores tm) ∧
  ∃ r, TaskManager.generatePerformanceReport tm = (Normal r, tm) ∧
    OverallStats.lowestScore (Report.overallStats r)
    <= OverallStats.averageScore (Report.overallStats r)
    <= OverallStats.highestScore (Report.overallStats r).
Proof.
  intros tm. split; [reflexivity|].
  destruct (overallStats_ordered tm) as (r & Hr & Havg & _).
  - vm_compute. repeat constructor.
  - exists r. split; [exact Hr|]. apply Havg. reflexivity.
Defined.

Lemma forEach_report_throws (l : list Attachee.t) :
  ∀ report (total count : Z),
    (∀ d, is_Some (Report.divisions report !! d) ↔ d ∈ Attachee.validDivisions) →
    Exists (fun a => Attachee.division a ∉ Attachee.validDivisions) l →
    ∃ msg, fst (forEach TaskManager.report_callback (report, total, count) l)
           = Throw (TypeError msg).
Proof.
  induction l as [|a l IH]; intros report total count Hkeys Hex; [by inversion Hex|].
  cbn [forEach].
  destruct (Report.divisions report !! Attachee.division a) as [array|] eqn:E.
  - rewrite (report_callback_found _ _ _ _ _ E).
    assert (Attachee.division a ∈ Attachee.validDivisions) as Ha by (apply Hkeys; eauto).
    apply Exists_cons in Hex as [Hex|Hex]; [done|].
    match goal with |- context [forEach _ (?r1, ?t1, ?n1) l] =>
      destruct (IH r1 t1 n1) as [msg Hmsg]; [|exact Hex|]
    end.
    + intros d. cbn [Report.divisions]. rewrite <- Hkeys.
      destruct (decide (Attachee.division a = d)) as [<-|Hne].
      * rewrite lookup_insert_eq, E. split; eauto.
      * by rewrite lookup_insert_ne.
    + exists msg.
      match goal with |- context [forEach ?f ?acc l] =>
        destruct (forEach f acc l) as [c l']
      end. exact Hmsg.
  - unfold TaskManager.report_callback.
    rewrite getPerformanceSummary_summary_of, E. eauto.
Qed.

(** X11.  [generatePerformanceReport] returns a report exactly when every
    record of the roster carries one of the four divisions; when some record
    carries another division (its field was changed after construction), the
    method throws a [TypeError].  In both cases the roster is left as it
    was. *)
Theorem report_needs_valid_divisions (tm : TaskManager.t) :
  snd (TaskManager.generatePerformanceReport tm) = tm ∧
  ((∃ r, fst (TaskManager.generatePerformanceReport tm) = Normal r) ↔
   Forall (fun a => Attachee.division a ∈ Attachee.validDivisions)
     (TaskManager.attachees tm)) ∧
  (Exists (fun a => Attachee.division a ∉ Attachee.validDivisions)
     (TaskManager.attachees tm) →
   ∃ msg, fst (TaskManager.generatePerformanceReport tm) = Throw (TypeError msg)).
Proof.
  split; [apply generatePerformanceReport_state|].
  assert (Exists (fun a => Attachee.division a ∉ Attachee.validDivisions)
            (TaskManager.attachees tm) →
          ∃ msg, fst (TaskManager.generatePerformanceReport tm) = Throw (TypeError msg))
    as Hthrows.
  { intros Hex. destruct tm as [l]. cbn [TaskManager.attachees] in Hex.
    unfold TaskManager.generatePerformanceReport. cbv zeta. cbn [TaskManager.attachees].
    match goal with |- context [forEach TaskManager.report_callback (?report, 0, 0) l] =>
      destruct (forEach_report_throws l report 0 0) as [msg Hmsg]; [|exact Hex|]
    end.
    - intros d. cbn [Report.divisions]. split.
      + intros Hsome. destruct (decide (d ∈ Attachee.validDivisions)) as [|Hd]; [done|].
        rewrite (initial_keys_None _ Hd) in Hsome. by destruct Hsome.
      + intros Hd. rewrite (initial_keys _ Hd). eauto.
    - exists msg.
      match goal with |- context [forEach ?f ?acc l] =>
        destruct (forEach f acc l) as [c l']
      end. cbn in Hmsg. by subst c. }
  split; [|exact Hthrows]. split.
  - intros [r Hr].
    destruct (decide (Forall (fun a => Attachee.division a ∈ Attachee.validDivisions)
                        (TaskManager.attachees tm))) as [|Hnot]; [done|].
    apply not_Forall_Exists in Hnot; [|solve_decision].
    destruct (Hthrows Hnot) as [msg Hmsg]. by rewrite Hmsg in Hr.
  - intros Hvalid. destruct (generatePerformanceReport_valid tm Hvalid) as (r & Hr & _).
    exists r. by rewrite Hr.
Qed.

Lemma report_needs_valid_divisions_witness :
  let tm := {| TaskManager.attachees :=
                 [mary; Attachee.mk "Omar Haitham" "omarhaitham@example.com" "Marketing"
                          [] [] 0] |} in
  ∃ msg, TaskManager.generatePerformanceReport tm = (Throw (TypeError msg), tm).
Proof.
  intros tm.
  destruct (report_needs_valid_divisions tm) as (Hstate & _ & Hthrows).
  destruct Hthrows as [msg Hmsg].
  - apply Exists_cons_tl, Exists_cons_hd. vm_compute.
    intros H. repeat (inversion H as [|? ? ? H']; clear H; rename H' into H).
  - exists msg. destruct (TaskManager.generatePerformanceReport tm) as [c tm'].
    cbn in Hstate, Hmsg. by subst.
Defined.

Lemma identity_call (c : Attachee.Call) (a : Attachee.t) :
  identity (Attachee.call c a) = identity a.
Proof.
  unfold identity. by destruct (call_fixed_fields c a) as (-> & -> & ->).
Qed.

Lemma identity_insert (l : list Attachee.t) (i : nat) (a a' : Attachee.t) :
  l !! i = Some a → identity a' = identity a →
  identity <$> <[i := a']> l = identity <$> l.
Proof.
  intros Hi Hid. rewrite list_fmap_insert, list_insert_id; [done|].
  by rewrite list_lookup_fmap, Hi, Hid.
Qed.

(** X12.  [assignTaskToDivision] never fails and keeps the size and the order
    of the roster and the name, email and division of every record.  The
    records of the division each get one new task, with the given description,
    deadline and priority, not completed, and numbered after the record's own
    tasks; the records of every other division stay as they were, and when the
    division has no record the roster is unchanged. *)
Theorem assignTaskToDivision_effect
    (division taskDescription deadline : string) (priority : Z) (tm : TaskManager.t) :
  ∃ tm', TaskManager.assignTaskToDivision division taskDescription deadline priority tm
         = (Normal tt, tm') ∧
    identity <$> TaskManager.attachees tm' = identity <$> TaskManager.attachees tm ∧
    Forall2
      (fun a a' =>
         Attachee.tasks a'
         = Attachee.tasks a
             ++ [Task.mk (Z.of_nat (length (Attachee.tasks a)) + 1) taskDescription
                   deadline priority false None] ∧
         Attachee.feedback a' = Attachee.feedback a ∧
         Attachee.performanceScore a' = Attachee.performanceScore a)
      (filter (fun a => Attachee.division a = division) (TaskManager.attachees tm))
      (filter (fun a => Attachee.division a = division) (TaskManager.attachees tm')) ∧
    (∀ d, d ≠ division →
       filter (fun a => Attachee.division a = d) (TaskManager.attachees tm')
       = filter (fun a => Attachee.division a = d) (TaskManager.attachees tm)) ∧
    (Forall (fun a => Attachee.division a ≠ division) (TaskManager.attachees tm) →
       tm' = tm).
Proof.
  rewrite assignTaskToDivision_records. eexists. split; [reflexivity|].
  destruct tm as [l]. cbn [TaskManager.attachees].
  split; [|split; [|split]].
  - rewrite <- list_fmap_compose. apply list_fmap_ext. intros i a _. cbn.
    by case_decide.
  - induction l as [|a l IH]; [constructor|].
    rewrite fmap_cons, !filter_cons.
    destruct (decide (Attachee.division a = division)) as [Ha|Ha].
    + rewrite decide_True by done. by constructor.
    + by rewrite decide_False.
  - intros d Hd. induction l as [|a l IH]; [done|].
    rewrite fmap_cons, !filter_cons, IH.
    destruct (decide (Attachee.division a = division)) as [Ha|Ha]; [|done].
    cbn. rewrite Ha. by rewrite !decide_False by done.
  - intros Hnone. f_equal. induction Hnone as [|a l Ha _ IH]; [done|].
    by rewrite fmap_cons, decide_False, IH.
Qed.

(** X13.  Only [addAttachee] and [removeAttachee] change who is on the roster:
    every other call, on the roster or on one of its records, keeps the size
    and the order of the roster and the name, email and division of each
    record. *)
Theorem roster_membership_fixed (c : TaskManager.Call) (tm : TaskManager.t) :
  (∀ name email division, c ≠ TaskManager.AddAttachee name email division) →
  (∀ email, c ≠ TaskManager.RemoveAttachee email) →
  identity <$> TaskManager.attachees (TaskManager.call c tm)
  = identity <$> TaskManager.attachees tm.
Proof.
  intros Hadd Hrem. destruct c; cbn [TaskManager.call].
  - by destruct (Hadd name email division).
  - by destruct (Hrem email).
  - done.
  - rewrite assignTaskToDivision_records. cbn [snd TaskManager.attachees].
    rewrite <- list_fmap_compose. apply list_fmap_ext. intros i a _. cbn.
    by case_decide.
  - unfold TaskManager.assignTaskToAttachee.
    destruct (list_find _ _) as [[i a]|] eqn:Hfind; [|done].
    apply list_find_Some in Hfind as (Hi & _ & _). cbn.
    by apply (identity_insert _ _ a).
  - unfold TaskManager.addFeedbackToAttachee.
    destruct (list_find _ _) as [[i a]|] eqn:Hfind; [|done].
    apply list_find_Some in Hfind as (Hi & _ & _).
    pose proof (identity_call (Attachee.AddFeedback feedbackText score reviewer now) a)
      as Hid. cbn [Attachee.call] in Hid.
    destruct (Attachee.addFeedback feedbackText score reviewer now a) as [r a'].
    cbn in Hid |- *. by apply (identity_insert _ _ a).
  - by rewrite generatePerformanceReport_state.
  - destruct (TaskManager.attachees tm !! i) as [a|] eqn:Hi; [|done]. cbn.
    apply (identity_insert _ _ a); [done|]. apply identity_call.
Qed.

Lemma roster_membership_fixed_witness :
  let tm := TaskManager.run example_usage TaskManager.new in
  identity <$> TaskManager.attachees
                 (TaskManager.call
                    (TaskManager.AssignTaskToDivision "Engineering" "Write tests"
                       "2023-07-10" 2) tm)
  = identity <$> TaskManager.attachees tm.
Proof.
  intros tm. apply roster_membership_fixed; intros; discriminate.
Defined.

(** ** The display *)

Section display.
Import TaskManager.
Implicit Types (tm : TaskManager.t) (console : list string) (r : Report.t).

Lemma forEach_display_summary (l : list Summary.t) console :
  forEach display_summary console l = (Normal (console ++ mbind summary_lines l), l).
Proof.
  revert console. induction l as [|s l IH]; intros console.
  - cbn. by rewrite app_nil_r.
  - cbn [forEach]. unfold display_summary at 1. rewrite IH.
    cbn [mbind list_bind]. fold (summary_lines s). by rewrite <- app_assoc.
Qed.

Lemma bind_summary_of (l : list Attachee.t) :
  mbind summary_lines (summary_of <$> l)
  = mbind (fun a => summary_lines (summary_of a)) l.
Proof. induction l as [|a l IH]; [done|]. cbn. by rewrite <- IH. Qed.

Lemma display_division_found r (d : string) (members : list Attachee.t) console :
  d ≠ "overallStats" →
  Report.divisions r !! d = Some (summary_of <$> members) →
  display_division r d console = (Normal tt, console ++ division_lines d members).
Proof.
  intros Hd Hl. unfold display_division. rewrite decide_False, Hl by done.
  destruct members as [|a members].
  - cbn. by rewrite app_nil_r.
  - replace (Z.of_nat (length (summary_of <$> a :: members)) >? 0) with true
      by (symmetry; apply Z.gtb_lt; cbn [fmap list_fmap length]; lia).
    rewrite forEach_display_summary, bind_summary_of, length_fmap.
    unfold division_lines. fold (division_header d (length (a :: members))).
    by rewrite <- app_assoc.
Qed.

Lemma length_bind_summary_lines (l : list Attachee.t) :
  length (mbind (fun a => summary_lines (summary_of a)) l) = (4 * length l)%nat.
Proof. induction l as [|a l IH]; [done|]. cbn in IH |- *. rewrite IH. lia. Qed.

Lemma length_division_lines (d : string) (members : list Attachee.t) :
  length (division_lines d members)
  = (match members with [] => 0 | _ :: _ => 1 end + 4 * length members)%nat.
Proof.
  destruct members as [|a l]; [done|].
  unfold division_lines. cbn [length]. rewrite length_bind_summary_lines. cbn [length]. lia.
Qed.

Lemma displayPerformanceReport_valid tm console :
  Forall (fun a => Attachee.division a ∈ Attachee.validDivisions) (attachees tm) →
  ∃ r, generatePerformanceReport tm = (Normal r, tm) ∧
    displayPerformanceReport (tm, console)
    = (Normal tt,
       (tm,
        console
          ++ [LF +:+ "=== TECH INNOVATION HUB PERFORMANCE REPORT ===" +:+ LF]
          ++ mbind (fun d => division_lines d
                               (filter (fun a => Attachee.division a = d) (attachees tm)))
               Attachee.validDivisions
          ++ stats_lines (Report.overallStats r))).
Proof.
  intros Hvalid.
  destruct (generatePerformanceReport_valid tm Hvalid) as (r & Hr & Hdiv & _).
  exists r. split; [exact Hr|].
  unfold displayPerformanceReport. rewrite Hr. unfold report_keys. cbn [forIn].
  assert (∀ d, d ∈ Attachee.validDivisions → d ≠ "overallStats") as Hne.
  { by intros d [->|[->|[->| ->]]]%valid_division_cases. }
  assert ("Engineering" ∈ Attachee.validDivisions) as H1
    by (apply valid_division_cases; tauto).
  assert ("Tech Programs" ∈ Attachee.validDivisions) as H2
    by (apply valid_division_cases; tauto).
  assert ("Radio Support" ∈ Attachee.validDivisions) as H3
    by (apply valid_division_cases; tauto).
  assert ("Hub Support" ∈ Attachee.validDivisions) as H4
    by (apply valid_division_cases; tauto).
  rewrite (display_division_found r _ _ _ (Hne _ H1) (Hdiv _ H1)).
  rewrite (display_division_found r _ _ _ (Hne _ H2) (Hdiv _ H2)).
  rewrite (display_division_found r _ _ _ (Hne _ H3) (Hdiv _ H3)).
  rewrite (display_division_found r _ _ _ (Hne _ H4) (Hdiv _ H4)).
  unfold display_division at 1. rewrite decide_True by reflexivity.
  unfold stats_lines, Attachee.validDivisions. cbn [mbind list_bind].
  rewrite app_nil_r, <- !app_assoc. reflexivity.
Qed.

End display.

(** X14.  For every roster whose records each carry one of the four
    divisions (so for every roster that calls of the public methods produce)
    and whose scores are in the range in which the program adds and divides
    exactly ([exact_range], which also keeps every printed score below
    [10^21]; the counts printed are lengths of arrays),
    [displayPerformanceReport] returns normally, leaves the roster as it was
    and keeps what the console already shows.  It logs the title, then for
    each of the four divisions in their fixed order, when the division has
    members, a header with the division name in capitals and the number of
    members, and four messages for each member in roster order (name, score,
    completed and assigned tasks, number of feedback entries); a division
    without members is passed over; it ends with the five messages of the
    overall statistics of the report. *)
Theorem display_renders_roster (tm : TaskManager.t) (console : list string) :
  Forall (fun a => Attachee.division a ∈ Attachee.validDivisions)
    (TaskManager.attachees tm) →
  exact_range (rosterScores tm) →
  ∃ r, TaskManager.generatePerformanceReport tm = (Normal r, tm) ∧
    TaskManager.displayPerformanceReport (tm, console)
    = (Normal tt,
       (tm,
        console
          ++ [LF +:+ "=== TECH INNOVATION HUB PERFORMANCE REPORT ===" +:+ LF]
          ++ mbind (fun d =>
                      division_lines d
                        (filter (fun a => Attachee.division a = d)
                           (TaskManager.attachees tm)))
               Attachee.validDivisions
          ++ stats_lines (Report.overallStats r))).
Proof.
  intros Hvalid _.
  destruct (displayPerformanceReport_valid tm console Hvalid) as (r & Hr & Hshow).
  exists r. split; [exact Hr|exact Hshow].
Qed.

Lemma display_renders_roster_witness :
  let tm := TaskManager.run example_usage TaskManager.new in
  exact_range (rosterScores tm) ∧
  ∃ out, TaskManager.displayPerformanceReport (tm, []) = (Normal tt, (tm, out)) ∧
    length out = 30%nat ∧
    last out = Some "Lowest Score: 0".
Proof.
  intros tm. split; [reflexivity|].
  destruct (display_renders_roster tm []) as (r & Hr & Hshow).
  - vm_compute. repeat constructor.
  - reflexivity.
  - eexists. split; [exact Hshow|].
    assert (r = match fst (TaskManager.generatePerformanceReport tm) with
                | Normal r' => r'
                | Throw _ => r
                end) as Hr' by (by rewrite Hr).
    rewrite Hr'. split; vm_compute; reflexivity.
Defined.

(** X15.  For every roster that calls of the public methods produce, with [n]
    records, of which [k] of the four divisions have at least one, the display
    logs [6 + 4 n + k] messages, and for every record of the roster the message
    with its name is among them. *)
Theorem display_shows_every_record (calls : list TaskManager.Call) (console : list string) :
  let tm := TaskManager.run calls TaskManager.new in
  let k := sum_list
             ((fun d => match filter (fun a => Attachee.division a = d)
                                (TaskManager.attachees tm) with
                        | [] => 0%nat
                        | _ :: _ => 1%nat
                        end) <$> Attachee.validDivisions) in
  ∃ out, TaskManager.displayPerformanceReport (tm, console)
         = (Normal tt, (tm, console ++ out)) ∧
    length out = (6 + 4 * length (TaskManager.attachees tm) + k)%nat ∧
    ∀ a, a ∈ TaskManager.attachees tm → LF +:+ "Name: " +:+ Attachee.name a ∈ out.
Proof.
  intros tm k.
  pose proof (run_valid_divisions calls) as Hvalid. fold tm in Hvalid.
  destruct (displayPerformanceReport_valid tm console Hvalid) as (r & _ & ->).
  eexists. split; [reflexivity|]. split.
  - subst k. unfold Attachee.validDivisions. cbn [mbind list_bind fmap list_fmap sum_list].
    rewrite !length_app, !length_division_lines. cbn [length].
    unfold id. change (length (stats_lines (Report.overallStats r))) with 5%nat.
    pose proof (by_division_lengths _ Hvalid) as Hsum.
    repeat match goal with
           | |- context [match ?l with [] => 0%nat | _ :: _ => 1%nat end] =>
               generalize (match l with [] => 0%nat | _ :: _ => 1%nat end); intros ?
           end.
    lia.
  - intros a Ha. rewrite Forall_forall in Hvalid. specialize (Hvalid a Ha).
    apply elem_of_app. right. apply elem_of_app. left.
    apply list_elem_of_bind. exists (Attachee.division a). split; [|done].
    assert (a ∈ filter (fun b => Attachee.division b = Attachee.division a)
                  (TaskManager.attachees tm)) as Hin by (by apply list_elem_of_filter).
    destruct (filter _ _) as [|b members] eqn:E; [by apply elem_of_nil in Hin|].
    unfold division_lines. apply elem_of_cons. right.
    apply list_elem_of_bind. exists a. split; [|done]. by left.
Qed.

(** X16.  When some record of the roster carries a division that is not one
    of the four, [displayPerformanceReport] throws the [TypeError] of the
    report before it logs anything: the console and the roster stay as they
    were. *)
Theorem display_fails_before_logging (tm : TaskManager.t) (console : list string) :
  Exists (fun a => Attachee.division a ∉ Attachee.validDivisions)
    (TaskManager.attachees tm) →
  ∃ msg, TaskManager.displayPerformanceReport (tm, console)
         = (Throw (TypeError msg), (tm, console)).
Proof.
  intros Hex.
  pose proof (generatePerformanceReport_state tm) as Hstate.
  assert (∃ msg, fst (TaskManager.generatePerformanceReport tm) = Throw (TypeError msg))
    as [msg Hmsg].
  { destruct tm as [l]. cbn [TaskManager.attachees] in Hex.
    unfold TaskManager.generatePerformanceReport. cbv zeta. cbn [TaskManager.attachees].
    match goal with |- context [forEach TaskManager.report_callback (?report, 0, 0) l] =>
      destruct (forEach_report_throws l report 0 0) as [msg Hmsg]; [|exact Hex|]
    end.
    - intros d. cbn [Report.divisions]. split.
      + intros Hsome. destruct (decide (d ∈ Attachee.validDivisions)) as [|Hd]; [done|].
        rewrite (initial_keys_None _ Hd) in Hsome. by destruct Hsome.
      + intros Hd. rewrite (initial_keys _ Hd). eauto.
    - exists msg.
      match goal with |- context [forEach ?f ?acc l] =>
        destruct (forEach f acc l) as [c l']
      end. cbn in Hmsg. by subst c. }
  exists msg. unfold TaskManager.displayPerformanceReport.
  destruct (TaskManager.generatePerformanceReport tm) as [c tm'].
  cbn in Hstate, Hmsg. by subst.
Qed.

Lemma display_fails_before_logging_witness :
  let tm := {| TaskManager.attachees :=
                 [mary; Attachee.mk "Omar Haitham" "omarhaitham@example.com" "Marketing"
                          [] [] 0] |} in
  ∃ msg, TaskManager.displayPerformanceReport (tm, ["ready"])
         = (Throw (TypeError msg), (tm, ["ready"])).
Proof.
  intros tm. apply display_fails_before_logging.
  apply Exists_cons_tl, Exists_cons_hd. vm_compute.
  intros H. repeat (inversion H as [|? ? ? H']; clear H; rename H' into H).
Defined.

(** X17.  A record without feedback counts in the report with the score 0:
    when a roster that calls of the public methods produce holds such a
    record, the report's lowest score is at most 0 and its highest score at
    least 0, and the lowest score is exactly 0 when no record has a negative
    score. *)
Theorem record_without_feedback_counts_as_zero
    (calls : list TaskManager.Call) (a : Attachee.t) :
  let tm := TaskManager.run calls TaskManager.new in
  a ∈ TaskManager.attachees tm →
  Attachee.feedback a = [] →
  ∃ r, TaskManager.generatePerformanceReport tm = (Normal r, tm) ∧
    Attachee.performanceScore a = 0 ∧
    OverallStats.lowestScore (Report.overallStats r) <= 0 ∧
    0 <= OverallStats.highestScore (Report.overallStats r) ∧
    (Forall (fun x => 0 <= x) (rosterScores tm) →
       OverallStats.lowestScore (Report.overallStats r) = 0).
Proof.
  intros tm Ha Hfb.
  destruct (generatePerformanceReport_valid tm (run_valid_divisions calls))
    as (r & Hr & _ & _ & _ & Hhi & Hlo).
  assert (Attachee.performanceScore a = 0) as Hzero.
  { pose proof (run_record_ok calls) as Hok. rewrite Forall_forall in Hok.
    destruct (Hok a Ha) as (_ & Hs & _). unfold score_matches_feedback in Hs.
    by rewrite Hfb in Hs. }
  assert (0 ∈ rosterScores tm) as Hin.
  { unfold rosterScores. rewrite <- Hzero. by apply list_elem_of_fmap_2. }
  assert (TaskManager.attachees tm ≠ []) as Hne.
  { intros Hnil. rewrite Hnil in Ha. by apply elem_of_nil in Ha. }
  rewrite decide_False in Hhi, Hlo by done.
  assert (is_min (OverallStats.lowestScore (Report.overallStats r)) (rosterScores tm))
    as [Hmin Hbound].
  { rewrite Hlo. apply running_min_is_min. apply Exists_exists. exists 0.
    split; [done|lia]. }
  rewrite Forall_forall in Hbound.
  exists r. split; [exact Hr|]. split; [exact Hzero|]. split; [by apply Hbound|].
  split; [rewrite Hhi; apply running_max_ge|].
  intros Hall. rewrite Forall_forall in Hall.
  specialize (Hall _ Hmin). specialize (Hbound _ Hin). lia.
Qed.

Lemma record_without_feedback_counts_as_zero_witness :
  let tm := TaskManager.run example_usage TaskManager.new in
  ∃ r, TaskManager.generatePerformanceReport tm = (Normal r, tm) ∧
    OverallStats.lowestScore (Report.overallStats r) = 0.
Proof.
  intros tm.
  destruct (record_without_feedback_counts_as_zero example_usage
              (Attachee.mk "Diana Charles" "diana@example.com" "Radio Support" [] [] 0))
    as (r & Hr & _ & _ & _ & Hlow).
  - vm_compute. do 3 constructor 2. constructor.
  - reflexivity.
  - exists r. split; [exact Hr|]. apply Hlow.
    vm_compute. repeat constructor; discriminate.
Defined.
